(** * psych.h: psychrometric property functions

    A shallow embedding of [psych.h] and the properties of its functions.

    The C code computes with [double] and calls [exp], [log] and [pow] of
    <math.h>.  The embedding is written once, over an interface [Double] of
    the arithmetic the code uses, and is read at two instances:

    - [R_double]: the real numbers, where the algebraic properties of the
      formulas are proved;
    - [Binary64.double]: IEEE 754 binary64 ([PrimFloat]), where the
      functions run, with the functions of the C library left as
      parameters.

    Properties that only depend on the control flow of the code are proved
    for every instance of the interface. *)

From Stdlib Require Import ZArith Bool List Reals Lra Lia.
From Stdlib Require Import PrimFloat SpecFloat FloatOps FloatAxioms.
Import ListNotations.

(** ** Numeric constants of the source

    A constant of the source is kept as the pair of integers it denotes:
    [0.62198] is [Lit 62198 100000], [2501] is [Lit 2501 1] and
    [2.0747825E-09] is [Lit 20747825 10000000000000000]. *)

Inductive literal : Set := Lit (mant : Z) (scale : Z).

Module Literal.

Definition digits (i : Decimal.signed_int) (f : Decimal.uint) : Z :=
  Z.of_int (Decimal.app_int i f).

Definition places (f : Decimal.uint) (e : Z) : option Z :=
  let k := (Z.of_nat (Decimal.nb_digits f) - e)%Z in
  if (k <? 0)%Z then None else Some (10 ^ k)%Z.

Definition of_number (n : Number.number) : option literal :=
  match n with
  | Number.Decimal (Decimal.Decimal i f) =>
      option_map (Lit (digits i f)) (places f 0)
  | Number.Decimal (Decimal.DecimalExp i f e) =>
      option_map (Lit (digits i f)) (places f (Z.of_int e))
  | Number.Hexadecimal _ => None
  end.

Definition to_number (l : literal) : option Number.number := None.

End Literal.

Declare Scope double_scope.
Delimit Scope double_scope with dbl.
Number Notation literal Literal.of_number Literal.to_number : double_scope.

(** ** The arithmetic of the code *)

Class Double (num : Type) : Type := {
  (** conversion of an [int] to [double] *)
  of_int : Z -> num;
  add : num -> num -> num;
  sub : num -> num -> num;
  mul : num -> num -> num;
  div : num -> num -> num;
  opp : num -> num;
  (** [a <= b] and [a < b]; [a >= b] is [b <= a] and [a > b] is [b < a] *)
  leb : num -> num -> bool;
  ltb : num -> num -> bool;
  (** <math.h> *)
  exp : num -> num;
  log : num -> num;
  pow : num -> num -> num;
  (** [abs]: the header includes only <math.h>, which does not declare it;
      its meaning is that of the translation unit that includes psych.h *)
  abs : num -> num
}.

(** What the branches of the code rely on in the order: [0 <= 0] holds, and
    [a < b] excludes [b <= a]. *)
Class Ordered (num : Type) `{Double num} : Prop := {
  zero_le_zero : leb (of_int 0) (of_int 0) = true;
  lt_not_le : forall a b : num, ltb a b = true -> leb b a = false
}.

(** ** [int] arithmetic

    [int] is taken as 32 bits in two's complement, and a difference that
    leaves the range wraps around (C leaves that case undefined). *)

Definition int_wrap (z : Z) : Z := ((z + 2 ^ 31) mod 2 ^ 32 - 2 ^ 31)%Z.
Definition int_sub (a b : Z) : Z := int_wrap (a - b).

(** ** [switch]

    A [switch] body is the list of its [case] labels in source order, each
    with the statements that follow it and whether they end in [break].
    Control enters at the first matching label and runs on through the
    following cases until a [break]; without a [default], no match does
    nothing.  A statement may fail to return (the wet-bulb loop), hence
    [option]. *)

Record case (S : Type) : Type := Case {
  label : Z;
  body : S -> option S;
  break : bool
}.

Arguments Case {S} _ _ _.
Arguments label {S} _.
Arguments body {S} _ _.
Arguments break {S} _.

Fixpoint fall_through {S} (cs : list (case S)) (s : S) : option S :=
  match cs with
  | [] => Some s
  | c :: cs' =>
      match body c s with
      | None => None
      | Some s' => if break c then Some s' else fall_through cs' s'
      end
  end.

Fixpoint switch {S} (tag : Z) (cs : list (case S)) (s : S) : option S :=
  match cs with
  | [] => Some s
  | c :: cs' =>
      if (tag =? label c)%Z then fall_through cs s else switch tag cs' s
  end.

(** ** The variables of [psych]

    [psych] assigns its parameters [P] and [Tdb] and declares
    [Twb, Dew, RH, W, h, out] without initialising them.  A frame holds one
    value per variable; what an unassigned variable holds at entry is
    whatever the frame is created with, and the theorems quantify over it. *)

Module Var.

Record t (num : Type) : Type := Frame {
  P : num; Tdb : num;
  Twb : num; Dew : num; RH : num; W : num; h : num; out : num
}.

Arguments Frame {num} _ _ _ _ _ _ _ _.
Arguments P {num} _.
Arguments Tdb {num} _.
Arguments Twb {num} _.
Arguments Dew {num} _.
Arguments RH {num} _.
Arguments W {num} _.
Arguments h {num} _.
Arguments out {num} _.

Section Setters.
Context {num : Type}.
Definition set_P (v : num) (s : t num) : t num :=
  Frame v (Tdb s) (Twb s) (Dew s) (RH s) (W s) (h s) (out s).
Definition set_Tdb (v : num) (s : t num) : t num :=
  Frame (P s) v (Twb s) (Dew s) (RH s) (W s) (h s) (out s).
Definition set_Twb (v : num) (s : t num) : t num :=
  Frame (P s) (Tdb s) v (Dew s) (RH s) (W s) (h s) (out s).
Definition set_Dew (v : num) (s : t num) : t num :=
  Frame (P s) (Tdb s) (Twb s) v (RH s) (W s) (h s) (out s).
Definition set_RH (v : num) (s : t num) : t num :=
  Frame (P s) (Tdb s) (Twb s) (Dew s) v (W s) (h s) (out s).
Definition set_W (v : num) (s : t num) : t num :=
  Frame (P s) (Tdb s) (Twb s) (Dew s) (RH s) v (h s) (out s).
Definition set_h (v : num) (s : t num) : t num :=
  Frame (P s) (Tdb s) (Twb s) (Dew s) (RH s) (W s) v (out s).
Definition set_out (v : num) (s : t num) : t num :=
  Frame (P s) (Tdb s) (Twb s) (Dew s) (RH s) (W s) (h s) v.
End Setters.

End Var.

(** Statements over a state [S]: assignment [x = e], sequence, nothing. *)

Definition assign {S V} (set : V -> S -> S) (e : S -> V) : S -> option S :=
  fun s => Some (set (e s) s).

Definition seq {S} (a b : S -> option S) : S -> option S :=
  fun s => match a s with Some s' => b s' | None => None end.

Definition skip {S} : S -> option S := @Some S.

(** ** The real numbers as [Double]

    The real-number reading of the code: every operation is exact, [pow] is
    the integer power at an integral exponent and [exp (y * ln x)] at
    another, [abs] is the absolute value.  Overflow, rounding and NaN have
    no counterpart here. *)

Module Real.

Local Open Scope R_scope.

Definition leb (a b : R) : bool := if Rle_dec a b then true else false.
Definition ltb (a b : R) : bool := if Rlt_dec a b then true else false.

Definition pow (x y : R) : R :=
  if Req_dec_T y (IZR (Int_part y))
  then powerRZ x (Int_part y)
  else Rpower x y.

End Real.

#[export] Instance R_double : Double R := {|
  of_int := IZR;
  add := Rplus;
  sub := Rminus;
  mul := Rmult;
  div := Rdiv;
  opp := Ropp;
  leb := Real.leb;
  ltb := Real.ltb;
  exp := Rtrigo_def.exp;
  log := ln;
  pow := Real.pow;
  abs := Rabs
|}.

(** ** Binary64 as [Double]

    [double] as the kernel's IEEE 754 binary64.  The functions of <math.h>
    and [abs] are those of the C library and are taken as given. *)

Module Binary64.

(** the double nearest to an integer (ties to even): exact on [int] *)
Definition int_to_double (z : Z) : float :=
  SF2Prim (binary_normalize 53 1024 z 0 false).

Definition double (c_exp c_log : float -> float)
    (c_pow : float -> float -> float) (c_abs : float -> float)
    : Double float := {|
  of_int := int_to_double;
  add := PrimFloat.add;
  sub := PrimFloat.sub;
  mul := PrimFloat.mul;
  div := PrimFloat.div;
  opp := PrimFloat.opp;
  leb := PrimFloat.leb;
  ltb := PrimFloat.ltb;
  exp := c_exp;
  log := c_log;
  pow := c_pow;
  abs := c_abs
|}.

End Binary64.

(** ** The functions of psych.h *)

Section Psych.

Context {num : Type} `{Double num}.

(** The value of a constant: an integer constant is converted, a decimal
    constant is the quotient of two exactly converted integers (for
    binary64 this is the double nearest to the decimal, the division being
    correctly rounded). *)
Definition lit (l : literal) : num :=
  match l with
  | Lit m s => if (s =? 1)%Z then of_int m else div (of_int m) (of_int s)
  end.

#[local] Coercion lit : literal >-> num.

Local Notation "a + b" := (add (a : num) (b : num)) : double_scope.
Local Notation "a - b" := (sub (a : num) (b : num)) : double_scope.
Local Notation "a * b" := (mul (a : num) (b : num)) : double_scope.
Local Notation "a / b" := (div (a : num) (b : num)) : double_scope.
Local Notation "- a" := (opp (a : num)) : double_scope.
Local Notation "a <= b" := (leb (a : num) (b : num)) : double_scope.
Local Notation "a >= b" := (leb (b : num) (a : num)) : double_scope.
Local Notation "a > b" := (ltb (b : num) (a : num)) : double_scope.
Local Notation "a < b" := (ltb (a : num) (b : num)) : double_scope.
Local Abbreviation exp := (@exp num _).
Local Abbreviation log := (@log num _).
Local Abbreviation pow := (@pow num _).
Local Abbreviation abs := (@abs num _).
Local Open Scope double_scope.

(** *** Primitive property functions *)

Definition part_press (P W : num) : num :=
  P * W / (0.62198 + W).

Definition sat_press (Tdb : num) : num :=
  let C1 : num := -5674.5359 in
  let C2 : num := 6.3925247 in
  let C3 : num := -0.009677843 in
  let C4 : num := 0.00000062215701 in
  let C5 : num := 2.0747825E-09 in
  let C6 : num := -9.484024E-13 in
  let C7 : num := 4.1635019 in
  let C8 : num := -5800.2206 in
  let C9 : num := 1.3914993 in
  let C10 : num := -0.048640239 in
  let C11 : num := 0.000041764768 in
  let C12 : num := -0.000000014452093 in
  let C13 : num := 6.5459673 in
  let TK : num := 173.15 in
  let TK := Tdb + 273.15 in
  if TK <= 273.15
  then exp (C1 / TK + C2 + C3 * TK + C4 * pow TK 2 + C5 * pow TK 3
            + C6 * pow TK 4 + C7 * log TK) / 1000
  else exp (C8 / TK + C9 + C10 * TK + C11 * pow TK 2 + C12 * pow TK 3
            + C13 * log TK) / 1000.

Definition hum_rat (Tdb Twb P : num) : num :=
  let Pws := sat_press Twb in
  let Ws := 0.62198 * Pws / (P - Pws) in
  if Tdb >= 0
  then ((2501 - 2.326 * Twb) * Ws - 1.006 * (Tdb - Twb))
       / (2501 + 1.86 * Tdb - 4.186 * Twb)
  else ((2830 - 0.24 * Twb) * Ws - 1.006 * (Tdb - Twb))
       / (2830 + 1.86 * Tdb - 2.1 * Twb).

Definition hum_rat2 (Tdb RH P : num) : num :=
  let Pws := sat_press Tdb in
  0.62198 * RH * Pws / (P - RH * Pws).

Definition rel_hum (Tdb Twb P : num) : num :=
  let W := hum_rat Tdb Twb P in
  part_press P W / sat_press Tdb.

Definition rel_hum2 (Tdb W P : num) : num :=
  part_press P W / sat_press Tdb.

Definition enthalpy_air_h2o (Tdb W : num) : num :=
  1.006 * Tdb + W * (2501 + 1.86 * Tdb).

Definition dew_point (P W : num) : num :=
  let C14 : num := 6.54 in
  let C15 : num := 14.526 in
  let C16 : num := 0.7389 in
  let C17 : num := 0.09486 in
  let C18 : num := 0.4569 in
  let Pw := part_press P W in
  let alpha := log Pw in
  let Tdp1 := C14 + C15 * alpha + C16 * pow alpha 2 + C17 * pow alpha 3
              + C18 * pow Pw 0.1984 in
  let Tdp2 := 6.09 + 12.608 * alpha + 0.4959 * pow alpha 2 in
  if Tdp1 >= 0 then Tdp1 else Tdp2.

Definition dry_air_density (P Tdb W : num) : num :=
  let R_da : num := 287.055 in
  1000 * P / (R_da * (273.15 + Tdb) * (1 + 1.6078 * W)).

Definition STD_press (elevation : num) : num :=
  101.325 * pow (1 - 0.0000225577 * elevation) 5.2559.

Definition STD_temp (elevation : num) : num :=
  15 - 0.0065 * elevation.

(** *** The wet-bulb solver

    The loop body declares [double Wet_bulb = Wet_bulb - ...]: a new
    variable of the block, whose scope starts at its own initialiser.  The
    initialiser therefore reads the new variable, not the function's
    [Wet_bulb], and so does the call of [hum_rat] after it; the
    function's [Wet_bulb] is read by the first statement of the body and
    by [return].  [junk i] is what the new variable holds when iteration
    [i] creates it.  [fuel] bounds the number of iterations; [None] is a
    loop that has not exited within it. *)

Fixpoint wet_bulb_loop (fuel : nat) (junk : nat -> num) (i : nat)
    (Tdb P W_normal Wet_bulb W_new : num) : option num :=
  match fuel with
  | O => None
  | S fuel' =>
      let W_new2 := hum_rat Tdb (Wet_bulb - 0.001) P in
      let dw_dtwb := (W_new - W_new2) / 0.001 in
      let Wet_bulb' := junk i - (W_new - W_normal) / dw_dtwb in
      let W_new := hum_rat Tdb Wet_bulb' P in
      if abs ((W_new - W_normal) / W_normal) > 0.00001
      then wet_bulb_loop fuel' junk (S i) Tdb P W_normal Wet_bulb W_new
      else Some Wet_bulb
  end.

Definition wet_bulb (fuel : nat) (junk : nat -> num) (Tdb RH P : num)
    : option num :=
  let W_normal := hum_rat2 Tdb RH P in
  let Wet_bulb := Tdb in
  let W_new := hum_rat Tdb Wet_bulb P in
  wet_bulb_loop fuel junk 0 Tdb P W_normal Wet_bulb W_new.

(** *** The dispatcher [psych] *)

Definition state : Type := Var.t num.

(** [if (SIq == 1) { ... } else { ... }]: the inputs in SI units *)

Definition input_SI (inValue : Z) : list (case state) :=
  [ Case 1 (assign Var.set_Twb (fun _ => of_int inValue)) true;
    Case 2 (assign Var.set_Dew (fun _ => of_int inValue)) true;
    Case 3 (assign Var.set_RH (fun _ => of_int inValue)) true;
    Case 4 (assign Var.set_W (fun _ => of_int inValue)) true;
    Case 7 (assign Var.set_h (fun _ => of_int inValue)) true ].

Definition input_IP (inValue : Z) : list (case state) :=
  [ Case 1 (assign Var.set_Twb
              (fun _ => of_int (int_sub inValue 32) / 1.8)) true;
    Case 2 (assign Var.set_Dew
              (fun _ => of_int (int_sub inValue 32) / 1.8)) true;
    Case 3 (assign Var.set_RH (fun _ => of_int inValue)) true;
    Case 4 (assign Var.set_W (fun _ => of_int inValue)) true;
    Case 7 (assign Var.set_h
              (fun _ => of_int inValue * 1.055056 / 0.45359237
                        - 17.884444444)) true ].

Definition normalise (inValue inType SIq : Z) : state -> option state :=
  if (SIq =? 1)%Z
  then seq (assign Var.set_P (fun s => Var.P s / 1000))
           (switch inType (input_SI inValue))
  else seq (assign Var.set_Tdb (fun s => (Var.Tdb s - 32) / 1.8))
      (seq (assign Var.set_P
              (fun s => Var.P s * 4.4482216152605 / pow 0.0254 2 / 1000))
           (switch inType (input_IP inValue))).

(** [if (outType == 3 || outType == 1) switch ... else switch ...] *)

Definition h_to_W (s : state) : num :=
  (1.006 * Var.Tdb s - Var.h s) / (- (2501 + 1.86 * Var.Tdb s)).

Definition find_RH : list (case state) :=
  [ Case 1 (assign Var.set_RH
              (fun s => rel_hum (Var.Tdb s) (Var.Twb s) (Var.P s))) true;
    Case 2 (assign Var.set_RH
              (fun s => sat_press (Var.Dew s) / sat_press (Var.Tdb s))) true;
    Case 3 skip true;
    Case 4 (assign Var.set_RH
              (fun s => part_press (Var.P s) (Var.W s)
                        / sat_press (Var.Tdb s))) true;
    Case 7 (seq (assign Var.set_W h_to_W)
                (assign Var.set_RH
                   (fun s => part_press (Var.P s) (Var.W s)
                             / sat_press (Var.Tdb s)))) true ].

Definition find_W : list (case state) :=
  [ Case 1 (assign Var.set_W
              (fun s => hum_rat (Var.Tdb s) (Var.Twb s) (Var.P s))) true;
    Case 2 (assign Var.set_W
              (fun s => 0.621945 * sat_press (Var.Dew s)
                        / (Var.P s - sat_press (Var.Dew s)))) true;
    Case 3 (assign Var.set_W
              (fun s => hum_rat2 (Var.Tdb s) (Var.RH s) (Var.P s))) true;
    Case 4 skip false;
    Case 7 (assign Var.set_W h_to_W) true ].

Definition resolve (inType outType : Z) : state -> option state :=
  if ((outType =? 3) || (outType =? 1))%Z
  then switch inType find_RH
  else switch inType find_W.

(** [switch (outType)]: the requested property, in SI units *)

Definition output (fuel : nat) (junk : nat -> num) : list (case state) :=
  [ Case 1 (fun s =>
              match wet_bulb fuel junk (Var.Tdb s) (Var.RH s) (Var.P s) with
              | Some Twb => Some (Var.set_out Twb s)
              | None => None
              end) true;
    Case 2 (assign Var.set_out
              (fun s => dew_point (Var.P s) (Var.W s))) true;
    Case 3 (assign Var.set_out (fun s => Var.RH s)) true;
    Case 4 (assign Var.set_out (fun s => Var.W s)) true;
    Case 5 (assign Var.set_out
              (fun s => part_press (Var.P s) (Var.W s) * 1000)) true;
    Case 6 (assign Var.set_out
              (fun s => Var.W s / hum_rat2 (Var.Tdb s) 1 (Var.P s))) true;
    Case 7 (assign Var.set_out
              (fun s => enthalpy_air_h2o (Var.Tdb s) (Var.W s))) true;
    Case 8 (assign Var.set_out (fun _ => (-9999 : num))) true;
    Case 9 (assign Var.set_out
              (fun s => 1 / dry_air_density (Var.P s) (Var.Tdb s)
                                            (Var.W s))) true;
    Case 10 (assign Var.set_out
               (fun s => dry_air_density (Var.P s) (Var.Tdb s) (Var.W s)
                         * (1 + Var.W s))) true ].

(** [if (SIq == 0) switch (outType)]: the output in Imperial units *)

Definition output_IP : list (case state) :=
  [ Case 1 (assign Var.set_out (fun s => 1.8 * Var.out s + 32)) true;
    Case 2 (assign Var.set_out (fun s => 1.8 * Var.out s + 32)) true;
    Case 5 (assign Var.set_out
              (fun s => Var.out s * pow 0.0254 2 / 4.448230531)) true;
    Case 7 (assign Var.set_out
              (fun s => (Var.out s + 17.88444444444) * 0.45359237
                        / 1.055056)) true;
    Case 9 (assign Var.set_out
              (fun s => Var.out s * 0.45359265
                        / pow (12 * 0.0254) 3)) true;
    Case 10 (assign Var.set_out
               (fun s => Var.out s * pow (12 * 0.0254) 3
                         / 0.45359265)) true ].

Definition denormalise (outType SIq : Z) : state -> option state :=
  if (SIq =? 0)%Z then switch outType output_IP else skip.

(** [init] is the frame as the call finds it; the arguments [P] and [Tdb]
    are stored in it. *)
Definition psych (fuel : nat) (junk : nat -> num) (init : state)
    (P Tdb : num) (inValue inType outType SIq : Z) : option num :=
  option_map (@Var.out num)
    (seq (normalise inValue inType SIq)
      (seq (resolve inType outType)
        (seq (switch outType (output fuel junk))
             (denormalise outType SIq)))
       (Var.set_P P (Var.set_Tdb Tdb init))).

(** *** The unit conversions of [psych], one at a time

    What the first and the last stage of [psych] do to a single value: the
    stage is run on a frame that holds the value, and the variable is read
    back.  [inType = 0] selects no case of the input [switch]. *)

Definition frame_of (v : num) : state := Var.Frame v v v v v v v v.

Definition convert_P (SIq : Z) (P : num) : option num :=
  option_map (@Var.P num) (normalise 0 0 SIq (frame_of P)).

Definition convert_Tdb (SIq : Z) (Tdb : num) : option num :=
  option_map (@Var.Tdb num) (normalise 0 0 SIq (frame_of Tdb)).

Definition convert_in (get : state -> num) (inType SIq inValue : Z)
    : option num :=
  option_map get (normalise inValue inType SIq (frame_of 0)).

Definition convert_out (outType SIq : Z) (v : num) : option num :=
  option_map (@Var.out num) (denormalise outType SIq (frame_of v)).

(** SI to Imperial by the output conversion, and back by the input
    conversion of [Tdb], of [P] (read in Pa, kept in kPa). *)

Definition round_trip_Tdb (outType : Z) (t : num) : option num :=
  match convert_out outType 0 t with
  | Some t' => convert_Tdb 0 t'
  | None => None
  end.

Definition round_trip_P (p : num) : option num :=
  match convert_out 5 0 p with
  | Some p' => convert_P 0 p'
  | None => None
  end.

(** *** Two properties of a case

    Its statements return from every state; they leave a variable (or any
    reading [get] of the frame) as it was. *)

Definition total {S} (c : case S) : Prop :=
  forall s, exists s', body c s = Some s'.

Definition keeps {V} (get : state -> V) (c : case state) : Prop :=
  forall s s', body c s = Some s' -> get s' = get s.

(** ** Control flow, in every arithmetic *)

(** *** [switch] *)

Lemma fall_through_total {S} (cs : list (case S)) :
  Forall total cs -> forall s, exists s', fall_through cs s = Some s'.
Proof.
  induction 1 as [|c cs Hc _ IH]; intros s; simpl.
  - now exists s.
  - destruct (Hc s) as [s1 ->]. destruct (break c); [now exists s1 | apply IH].
Qed.

Lemma switch_total {S} (tag : Z) (cs : list (case S)) :
  Forall total cs -> forall s, exists s', switch tag cs s = Some s'.
Proof.
  induction 1 as [|c cs Hc Hcs IH]; intros s; simpl.
  - now exists s.
  - destruct (tag =? label c)%Z; [|apply IH].
    apply (fall_through_total (c :: cs)). now constructor.
Qed.

Lemma assign_total {V} (l : Z) (set : V -> state -> state) (e : state -> V)
    (b : bool) :
  total (Case l (assign set e) b).
Proof. intros s. now exists (set (e s) s). Qed.

Lemma seq_some (a b : state -> option state) (s : state) :
  (forall s, exists s', a s = Some s') ->
  (forall s, exists s', b s = Some s') ->
  exists s', seq a b s = Some s'.
Proof.
  intros Ha Hb. unfold seq. destruct (Ha s) as [s1 ->]. apply Hb.
Qed.

Lemma fall_through_keeps {V} (get : state -> V) (cs : list (case state)) :
  Forall (keeps get) cs ->
  forall s s', fall_through cs s = Some s' -> get s' = get s.
Proof.
  induction 1 as [|c cs Hc _ IH]; intros s s'; simpl.
  - now intros [= ->].
  - destruct (body c s) as [s1|] eqn:E; [|discriminate].
    destruct (break c).
    + intros [= <-]. now apply Hc.
    + intros E'. rewrite (IH _ _ E'). now apply Hc.
Qed.

Lemma switch_keeps {V} (get : state -> V) (tag : Z) (cs : list (case state)) :
  Forall (keeps get) cs ->
  forall s s', switch tag cs s = Some s' -> get s' = get s.
Proof.
  induction 1 as [|c cs Hc Hcs IH]; intros s s'; simpl.
  - now intros [= ->].
  - destruct (tag =? label c)%Z; [|apply IH].
    apply (fall_through_keeps get (c :: cs)). now constructor.
Qed.

(** *** The input stage *)

Lemma input_SI_total inValue : Forall total (input_SI inValue).
Proof. repeat constructor; apply assign_total. Qed.

Lemma input_IP_total inValue : Forall total (input_IP inValue).
Proof. repeat constructor; apply assign_total. Qed.

Lemma normalise_total inValue inType SIq s :
  exists s', normalise inValue inType SIq s = Some s'.
Proof.
  unfold normalise. destruct (SIq =? 1)%Z.
  - apply seq_some; [intros; eexists; reflexivity|].
    apply switch_total, input_SI_total.
  - apply seq_some; [intros; eexists; reflexivity|]. intros s1.
    apply seq_some; [intros; eexists; reflexivity|].
    apply switch_total, input_IP_total.
Qed.

Lemma find_RH_total : Forall total find_RH.
Proof.
  repeat constructor; try apply assign_total; intros s; eexists; reflexivity.
Qed.

Lemma find_W_total : Forall total find_W.
Proof.
  repeat constructor; try apply assign_total; intros s; eexists; reflexivity.
Qed.

Lemma resolve_total inType outType s :
  exists s', resolve inType outType s = Some s'.
Proof.
  unfold resolve. destruct (_ || _)%bool; apply switch_total.
  - apply find_RH_total.
  - apply find_W_total.
Qed.

Lemma normalise_not_SI inValue inType SIq :
  SIq <> 1%Z -> normalise inValue inType SIq = normalise inValue inType 0.
Proof.
  intros E. unfold normalise. apply Z.eqb_neq in E. now rewrite E.
Qed.

Lemma input_IP_keeps {V} (get : state -> V) inValue :
  (forall v s, get (Var.set_Twb v s) = get s) ->
  (forall v s, get (Var.set_Dew v s) = get s) ->
  (forall v s, get (Var.set_RH v s) = get s) ->
  (forall v s, get (Var.set_W v s) = get s) ->
  (forall v s, get (Var.set_h v s) = get s) ->
  Forall (keeps get) (input_IP inValue).
Proof.
  intros H1 H2 H3 H4 H5.
  repeat constructor; intros s s' [= <-]; auto.
Qed.

(** With any selector but 1, [Tdb] is taken as degrees Fahrenheit and [P]
    as pounds per square inch. *)
Lemma normalise_not_SI_Tdb_P inValue inType SIq s :
  SIq <> 1%Z ->
  exists s', normalise inValue inType SIq s = Some s'
    /\ Var.Tdb s' = (Var.Tdb s - 32) / 1.8
    /\ Var.P s' = Var.P s * 4.4482216152605 / pow 0.0254 2 / 1000.
Proof.
  intros E. destruct (normalise_total inValue inType SIq s) as [s' Hs'].
  exists s'. split; [exact Hs'|].
  unfold normalise in Hs'. apply Z.eqb_neq in E. rewrite E in Hs'.
  unfold seq, assign in Hs'.
  split.
  - apply (switch_keeps (@Var.Tdb num)) in Hs';
      [exact Hs' | now apply input_IP_keeps].
  - apply (switch_keeps (@Var.P num)) in Hs';
      [exact Hs' | now apply input_IP_keeps].
Qed.

Lemma denormalise_not_IP outType SIq :
  SIq <> 0%Z -> denormalise outType SIq = skip.
Proof.
  intros E. unfold denormalise. apply Z.eqb_neq in E. now rewrite E.
Qed.

(** *** C10: the unit selector *)

(** C10.  The unit selector is read twice, against different values.
    With [SIq = 1] the pressure is divided by 1000, the dry bulb and
    [inValue] are taken as they are, and the output is not converted.  With
    any other [SIq], not only 0, the dry bulb is taken as degrees
    Fahrenheit ([(Tdb - 32) / 1.8]), the pressure as pounds per square inch
    ([P * 4.4482216152605 / pow (0.0254, 2) / 1000]), a wet bulb or dew
    point as degrees Fahrenheit and an enthalpy as BTU/lb; the output is
    converted to Imperial units only with [SIq = 0].  So for [SIq] outside
    [{0, 1}] [psych] is the computation on Imperial inputs with the output
    left in SI units. *)
Theorem psych_unit_selector fuel junk init P Tdb inValue inType outType SIq :
  (SIq = 1%Z ->
   psych fuel junk init P Tdb inValue inType outType SIq =
   option_map (@Var.out num)
     (seq (switch inType (input_SI inValue))
       (seq (resolve inType outType) (switch outType (output fuel junk)))
       (Var.set_P (P / 1000) (Var.set_Tdb Tdb init))))
  /\ (SIq = 0%Z ->
      psych fuel junk init P Tdb inValue inType outType SIq =
      option_map (@Var.out num)
        (seq (switch inType (input_IP inValue))
          (seq (resolve inType outType)
            (seq (switch outType (output fuel junk))
                 (switch outType output_IP)))
          (Var.set_P (P * 4.4482216152605 / pow 0.0254 2 / 1000)
             (Var.set_Tdb ((Tdb - 32) / 1.8) init))))
  /\ (SIq <> 0%Z -> SIq <> 1%Z ->
      psych fuel junk init P Tdb inValue inType outType SIq =
      option_map (@Var.out num)
        (seq (switch inType (input_IP inValue))
          (seq (resolve inType outType) (switch outType (output fuel junk)))
          (Var.set_P (P * 4.4482216152605 / pow 0.0254 2 / 1000)
             (Var.set_Tdb ((Tdb - 32) / 1.8) init))))
  /\ (SIq <> 1%Z ->
      convert_P SIq P = Some (P * 4.4482216152605 / pow 0.0254 2 / 1000)
      /\ convert_Tdb SIq Tdb = Some ((Tdb - 32) / 1.8)
      /\ convert_in (@Var.Twb num) 1 SIq inValue
         = Some (of_int (int_sub inValue 32) / 1.8)
      /\ convert_in (@Var.Dew num) 2 SIq inValue
         = Some (of_int (int_sub inValue 32) / 1.8)
      /\ convert_in (@Var.RH num) 3 SIq inValue = Some (of_int inValue)
      /\ convert_in (@Var.W num) 4 SIq inValue = Some (of_int inValue)
      /\ convert_in (@Var.h num) 7 SIq inValue
         = Some (of_int inValue * 1.055056 / 0.45359237 - 17.884444444))
  /\ (SIq <> 0%Z -> forall v : num, convert_out outType SIq v = Some v)
  /\ (SIq = 0%Z ->
      forall v : num,
        convert_out 1 SIq v = Some (1.8 * v + 32)
        /\ convert_out 2 SIq v = Some (1.8 * v + 32)
        /\ convert_out 5 SIq v = Some (v * pow 0.0254 2 / 4.448230531)
        /\ convert_out 7 SIq v
           = Some ((v + 17.88444444444) * 0.45359237 / 1.055056)
        /\ convert_out 9 SIq v
           = Some (v * 0.45359265 / pow (12 * 0.0254) 3)
        /\ convert_out 10 SIq v
           = Some (v * pow (12 * 0.0254) 3 / 0.45359265)).
Proof.
  split; [|split; [|split; [|split; [|split]]]].
  - intros ->. unfold psych, normalise, denormalise.
    cbv [Z.eqb Pos.eqb]. f_equal. unfold seq, assign, skip.
    cbv [Var.P Var.set_P Var.set_Tdb Var.Tdb].
    destruct (switch inType _ _) as [s1|]; [|reflexivity].
    destruct (resolve _ _ _) as [s2|]; [|reflexivity].
    now destruct (switch _ _ _).
  - intros ->. reflexivity.
  - intros H0 H1. unfold psych, normalise, denormalise.
    apply Z.eqb_neq in H0, H1. rewrite H0, H1.
    f_equal. unfold seq, assign, skip.
    cbv [Var.P Var.set_P Var.set_Tdb Var.Tdb].
    destruct (switch inType _ _) as [s1|]; [|reflexivity].
    destruct (resolve _ _ _) as [s2|]; [|reflexivity].
    now destruct (switch _ _ _).
  - intros H1. apply Z.eqb_neq in H1.
    unfold convert_P, convert_Tdb, convert_in, normalise. rewrite H1.
    repeat split.
  - intros H0 v. apply Z.eqb_neq in H0.
    unfold convert_out, denormalise. now rewrite H0.
  - intros -> v. repeat split.
Qed.

(** *** C5: entropy *)

(** C5.  A request for entropy ([outType = 8]) returns [-9999], whatever
    the other arguments and the unit selector are: the value is a constant
    of the code, and no case of the Imperial conversion applies to it. *)
Theorem psych_entropy fuel junk init P Tdb inValue inType SIq :
  psych fuel junk init P Tdb inValue inType 8 SIq = Some (-9999 : num).
Proof.
  unfold psych, seq.
  destruct (normalise_total inValue inType SIq
              (Var.set_P P (Var.set_Tdb Tdb init))) as [s1 ->].
  destruct (resolve_total inType 8 s1) as [s2 ->].
  unfold denormalise. now destruct (SIq =? 0)%Z.
Qed.

(** *** C1: humidity ratio given *)

(** Under [case 4] of the second [switch] there is no [break]: control runs
    on into [case 7], which assigns [W] from [h]. *)
Lemma resolve_W_given outType s :
  outType <> 1%Z -> outType <> 3%Z ->
  resolve 4 outType s = Some (Var.set_W (h_to_W s) s).
Proof.
  intros H1 H3. unfold resolve.
  apply Z.eqb_neq in H1, H3. now rewrite H1, H3.
Qed.

(** The input stage stores the given humidity ratio in [W] and leaves [h]
    as it found it; the second stage then overwrites [W]. *)
Lemma normalise_W_given inValue SIq s :
  exists s', normalise inValue 4 SIq s = Some s'
    /\ Var.W s' = of_int inValue /\ Var.h s' = Var.h s.
Proof.
  unfold normalise. destruct (SIq =? 1)%Z; eexists; repeat split.
Qed.

Lemma psych_W_given init P Tdb inValue outType SIq :
  outType <> 1%Z -> outType <> 3%Z ->
  exists s,
    seq (normalise inValue 4 SIq) (resolve 4 outType)
      (Var.set_P P (Var.set_Tdb Tdb init)) = Some s
    /\ Var.W s =
       (1.006 * Var.Tdb s - Var.h init) / (- (2501 + 1.86 * Var.Tdb s)).
Proof.
  intros H1 H3. unfold seq.
  destruct (normalise_W_given inValue SIq
              (Var.set_P P (Var.set_Tdb Tdb init))) as (s1 & -> & _ & Hh).
  rewrite (resolve_W_given outType s1 H1 H3).
  eexists. split; [reflexivity|].
  cbn [Var.W Var.set_W Var.Tdb]. unfold h_to_W. now rewrite Hh.
Qed.

(** C1 (as the code has it).  With the humidity ratio both given and asked
    for, [psych] does not return [inValue]: it returns the humidity ratio
    that the enthalpy formula yields for [h], a variable that this call
    never assigns. *)
Theorem psych_W_given_W_asked fuel junk init P Tdb inValue SIq :
  psych fuel junk init P Tdb inValue 4 4 SIq =
  let Tdb := if (SIq =? 1)%Z then Tdb else (Tdb - 32) / 1.8 in
  Some ((1.006 * Tdb - Var.h init) / (- (2501 + 1.86 * Tdb))).
Proof.
  unfold psych, normalise, denormalise.
  destruct (SIq =? 1)%Z; destruct (SIq =? 0)%Z; reflexivity.
Qed.

(** *** C2: the wet-bulb loop *)

Lemma wet_bulb_loop_returns fuel junk i Tdb P W_normal Wet_bulb W_new r :
  wet_bulb_loop fuel junk i Tdb P W_normal Wet_bulb W_new = Some r ->
  r = Wet_bulb.
Proof.
  revert i W_new. induction fuel as [|fuel IH]; intros i W_new; simpl.
  - discriminate.
  - destruct (ltb _ _); [apply IH | now intros [= <-]].
Qed.

(** C2 (as the code has it).  The value that [wet_bulb] returns is its
    initial guess [Tdb]: the Newton update is stored in a variable of the
    loop body, and neither the next iteration's derivative nor [return]
    reads it. *)
Theorem wet_bulb_returns_Tdb fuel junk Tdb RH P :
  wet_bulb fuel junk Tdb RH P = None \/
  wet_bulb fuel junk Tdb RH P = Some Tdb.
Proof.
  destruct (wet_bulb fuel junk Tdb RH P) as [r|] eqn:E; [right | now left].
  unfold wet_bulb in E. now rewrite (wet_bulb_loop_returns _ _ _ _ _ _ _ _ _ E).
Qed.

(** *** C7, C8, C9: the branches of the correlations *)

Context `{!Ordered num}.

(** C8.  [sat_press] adds 273.15 to its argument and evaluates the ice
    correlation (C1..C7) when the sum is at most 273.15 and the liquid
    correlation (C8..C13) when it is greater; nothing is blended. *)
Theorem sat_press_regimes Tdb :
  let TK := Tdb + 273.15 in
  ((TK <= 273.15) = true ->
   sat_press Tdb =
   exp (-5674.5359 / TK + 6.3925247 + -0.009677843 * TK
        + 0.00000062215701 * pow TK 2 + 2.0747825E-09 * pow TK 3
        + -9.484024E-13 * pow TK 4 + 4.1635019 * log TK) / 1000)
  /\
  ((TK > 273.15) = true ->
   sat_press Tdb =
   exp (-5800.2206 / TK + 1.3914993 + -0.048640239 * TK
        + 0.000041764768 * pow TK 2 + -0.000000014452093 * pow TK 3
        + 6.5459673 * log TK) / 1000).
Proof.
  intros TK. unfold sat_press. fold TK. split; intros E.
  - now rewrite E.
  - now rewrite (lt_not_le _ _ E).
Qed.

(** C9.  [hum_rat] takes the above-freezing form for every [Tdb >= 0], at
    [Tdb = 0] too, and the below-freezing form for every [Tdb < 0]. *)
Theorem hum_rat_regimes Tdb Twb P :
  let Ws := 0.62198 * sat_press Twb / (P - sat_press Twb) in
  let above (T : num) :=
    ((2501 - 2.326 * Twb) * Ws - 1.006 * (T - Twb))
    / (2501 + 1.86 * T - 4.186 * Twb) in
  let below (T : num) :=
    ((2830 - 0.24 * Twb) * Ws - 1.006 * (T - Twb))
    / (2830 + 1.86 * T - 2.1 * Twb) in
  ((Tdb >= 0) = true -> hum_rat Tdb Twb P = above Tdb)
  /\ hum_rat 0 Twb P = above (0 : num)
  /\ ((Tdb < 0) = true -> hum_rat Tdb Twb P = below Tdb).
Proof.
  intros Ws above below. unfold hum_rat. fold Ws. repeat split.
  - now intros ->.
  - change (leb (0 : num) (0 : num)) with (leb (of_int 0) (of_int 0)).
    now rewrite zero_le_zero.
  - intros E. now rewrite (lt_not_le _ _ E).
Qed.

(** C7.  [dew_point] evaluates both fits on [alpha = log (part_press P W)]
    and returns the first when the first is [>= 0], the second otherwise:
    the choice is made on the computed candidate. *)
Theorem dew_point_selection P W :
  let Pw := part_press P W in
  let alpha := log Pw in
  let Tdp1 := 6.54 + 14.526 * alpha + 0.7389 * pow alpha 2
              + 0.09486 * pow alpha 3 + 0.4569 * pow Pw 0.1984 in
  let Tdp2 := 6.09 + 12.608 * alpha + 0.4959 * pow alpha 2 in
  ((Tdp1 >= 0) = true -> dew_point P W = Tdp1)
  /\ ((Tdp1 >= 0) = false -> dew_point P W = Tdp2).
Proof.
  intros Pw alpha Tdp1 Tdp2. unfold dew_point.
  fold Pw. fold alpha. fold Tdp1. fold Tdp2.
  split; now intros ->.
Qed.

End Psych.

(** ** The order laws at the two instances *)

Module RealFacts.

Local Open Scope R_scope.

Lemma leb_true (a b : R) : Real.leb a b = true <-> a <= b.
Proof.
  unfold Real.leb; destruct (Rle_dec a b); split; intros; try easy; lra.
Qed.

Lemma leb_false (a b : R) : Real.leb a b = false <-> b < a.
Proof.
  unfold Real.leb; destruct (Rle_dec a b); split; intros; try easy; lra.
Qed.

Lemma ltb_true (a b : R) : Real.ltb a b = true <-> a < b.
Proof.
  unfold Real.ltb; destruct (Rlt_dec a b); split; intros; try easy; lra.
Qed.

Lemma ltb_false (a b : R) : Real.ltb a b = false <-> b <= a.
Proof.
  unfold Real.ltb; destruct (Rlt_dec a b); split; intros; try easy; lra.
Qed.

Lemma pow_int (x : R) (n : Z) : Real.pow x (IZR n) = powerRZ x n.
Proof.
  unfold Real.pow.
  assert (E : Int_part (IZR n) = n) by (symmetry; apply Int_part_spec; lra).
  rewrite E. destruct (Req_dec_T (IZR n) (IZR n)); congruence.
Qed.

Lemma pow_2 (x : R) : Real.pow x 2 = x * x.
Proof. rewrite pow_int. simpl. lra. Qed.

Lemma pow_3 (x : R) : Real.pow x 3 = x * x * x.
Proof. rewrite pow_int. simpl. lra. Qed.

Lemma pow_one (y : R) : Real.pow 1 y = 1.
Proof.
  unfold Real.pow. destruct (Req_dec_T _ _).
  - apply powerRZ_R1.
  - unfold Rpower. rewrite ln_1, Rmult_0_r. apply exp_0.
Qed.

(** a fractional power of a number in (0, 1] stays in (0, 1] *)
Lemma pow_frac (x y : R) :
  0 < x <= 1 -> 0 < y < 1 -> 0 < Real.pow x y <= 1.
Proof.
  intros Hx Hy. unfold Real.pow. destruct (Req_dec_T _ _) as [E|_].
  - destruct (base_Int_part y) as [Lo Hi].
    assert (Z0 : Int_part y = 0%Z).
    { assert (-1 < IZR (Int_part y) < 1) as [A B] by lra.
      apply lt_IZR in A, B. lia. }
    rewrite Z0. simpl. lra.
  - unfold Rpower. split; [apply exp_pos|].
    rewrite <- exp_0.
    assert (ln x <= 0) as Hl.
    { rewrite <- ln_1. destruct Hx as [Hx [L|E]].
      - left. now apply ln_increasing.
      - rewrite E. lra. }
    assert (y * ln x <= 0) as [L|E] by nra.
    + left. now apply exp_increasing.
    + rewrite E. lra.
Qed.

End RealFacts.

#[export] Instance R_ordered : Ordered R.
Proof.
  split.
  - apply RealFacts.leb_true. apply Rle_refl.
  - intros a b E. apply RealFacts.ltb_true in E. now apply RealFacts.leb_false.
Qed.

Module Binary64Facts.

Lemma SFcompare_Lt_Gt (a b : spec_float) :
  SFcompare a b = Some Lt -> SFcompare b a = Some Gt.
Proof.
  destruct a as [sa|sa| |sa ma ea], b as [sb|sb| |sb mb eb]; simpl;
    try discriminate; try (destruct sa; try destruct sb; simpl; congruence).
  change (Pos.compare_cont Eq ma mb) with (Pos.compare ma mb).
  change (Pos.compare_cont Eq mb ma) with (Pos.compare mb ma).
  rewrite (Z.compare_antisym ea eb), (Pos.compare_antisym ma mb).
  destruct sa, sb; try congruence;
    destruct (ea ?= eb)%Z; simpl; try congruence;
    destruct (ma ?= mb)%positive; simpl; congruence.
Qed.

Lemma lt_not_le (a b : float) :
  PrimFloat.ltb a b = true -> PrimFloat.leb b a = false.
Proof.
  rewrite ltb_spec, leb_spec. unfold SFltb, SFleb.
  destruct (SFcompare (Prim2SF a) (Prim2SF b)) as [[]|] eqn:E;
    try discriminate.
  intros _. now rewrite (SFcompare_Lt_Gt _ _ E).
Qed.

Lemma ordered c_exp c_log c_pow c_abs :
  @Ordered float (Binary64.double c_exp c_log c_pow c_abs).
Proof. split; [reflexivity | exact lt_not_le]. Qed.

End Binary64Facts.

(** ** The formulas over the real numbers *)

Ltac to_R :=
  cbv [lit Z.eqb Pos.eqb] in *;
  change (@of_int R R_double) with IZR in *;
  change (@add R R_double) with Rplus in *;
  change (@sub R R_double) with Rminus in *;
  change (@mul R R_double) with Rmult in *;
  change (@div R R_double) with Rdiv in *;
  change (@opp R R_double) with Ropp in *;
  change (@leb R R_double) with Real.leb in *;
  change (@ltb R R_double) with Real.ltb in *;
  change (@exp R R_double) with Rtrigo_def.exp in *;
  change (@log R R_double) with ln in *;
  change (@pow R R_double) with Real.pow in *;
  change (@abs R R_double) with Rabs in *.

(** a decimal constant of [R] as the quotient of its two integers *)
Ltac dec_R :=
  repeat match goal with
  | |- context [Q2R (QArith_base.Qmake ?m ?d)] =>
      change (Q2R (QArith_base.Qmake m d)) with (Rdiv (IZR m) (IZR (Zpos d)))
  end.

Section RealReading.

Local Open Scope R_scope.

Lemma sat_press_pos (Tdb : R) : 0 < sat_press Tdb.
Proof.
  unfold sat_press. to_R.
  destruct (Real.leb _ _); apply Rdiv_lt_0_compat; try apply exp_pos; lra.
Qed.

(** *** Bounds on [sat_press 20]

    [exp 1] lies in [[2.6, 3]]: the lower bound by squaring
    [1 + 1/16 <= exp (1/16)] four times. *)

Lemma exp_double (x : R) :
  Rtrigo_def.exp (x + x) = Rtrigo_def.exp x * Rtrigo_def.exp x.
Proof. apply exp_plus. Qed.

Lemma exp_mono (x y : R) : x <= y -> Rtrigo_def.exp x <= Rtrigo_def.exp y.
Proof.
  intros [L|E]; [left; now apply exp_increasing | right; now rewrite E].
Qed.

Lemma exp_1_ge : 2.6 <= Rtrigo_def.exp 1.
Proof.
  pose proof (exp_ineq1_le (1/16)) as H16.
  pose proof (exp_double (1/16)) as E8.
  pose proof (exp_double (1/8)) as E4.
  pose proof (exp_double (1/4)) as E2.
  pose proof (exp_double (1/2)) as E1.
  replace (1/16 + 1/16) with (1/8) in E8 by lra.
  replace (1/8 + 1/8) with (1/4) in E4 by lra.
  replace (1/4 + 1/4) with (1/2) in E2 by lra.
  replace (1/2 + 1/2) with 1 in E1 by lra.
  set (a := Rtrigo_def.exp (1/16)) in *.
  set (b := Rtrigo_def.exp (1/8)) in *.
  set (c := Rtrigo_def.exp (1/4)) in *.
  set (d := Rtrigo_def.exp (1/2)) in *.
  assert (1.128 <= b) by nra.
  assert (1.272 <= c) by nra.
  assert (1.617 <= d) by nra.
  nra.
Qed.

Lemma exp_6_ge : 300 <= Rtrigo_def.exp 6.
Proof.
  pose proof exp_1_ge as H1.
  pose proof (exp_double 1) as E2.
  pose proof (exp_plus 2 1) as E3.
  pose proof (exp_double 3) as E6.
  replace (1 + 1) with 2 in E2 by lra.
  replace (2 + 1) with 3 in E3 by lra.
  replace (3 + 3) with 6 in E6 by lra.
  set (a := Rtrigo_def.exp 1) in *.
  set (b := Rtrigo_def.exp 2) in *.
  set (c := Rtrigo_def.exp 3) in *.
  assert (6.76 <= b) by nra.
  assert (17.5 <= c) by nra.
  nra.
Qed.

Lemma exp_10_le : Rtrigo_def.exp 10 <= 59049.
Proof.
  pose proof exp_le_3 as H1. pose proof (exp_pos 1) as P1.
  pose proof (exp_double 1) as E2.
  pose proof (exp_double 2) as E4.
  pose proof (exp_plus 4 1) as E5.
  pose proof (exp_double 5) as E10.
  replace (1 + 1) with 2 in E2 by lra.
  replace (2 + 2) with 4 in E4 by lra.
  replace (4 + 1) with 5 in E5 by lra.
  replace (5 + 5) with 10 in E10 by lra.
  set (a := Rtrigo_def.exp 1) in *.
  set (b := Rtrigo_def.exp 2) in *.
  set (c := Rtrigo_def.exp 4) in *.
  set (d := Rtrigo_def.exp 5) in *.
  assert (0 < b <= 9) by nra.
  assert (0 < c <= 81) by nra.
  assert (0 < d <= 243) by nra.
  nra.
Qed.

Lemma ln_293_le : ln 293.15 <= 6.
Proof.
  rewrite <- (ln_exp 6). pose proof exp_6_ge.
  left. apply ln_increasing; lra.
Qed.

(** At 20 degrees Celsius the saturation pressure is below 59.05 kPa (it is
    about 2.34 kPa), hence below the standard atmosphere. *)
Lemma sat_press_20 : sat_press 20 < 59.05.
Proof.
  unfold sat_press. to_R.
  replace (20 + 27315 / 100) with 293.15 by lra.
  destruct (Real.leb 293.15 (27315 / 100)) eqn:E.
  { apply RealFacts.leb_true in E. lra. }
  rewrite RealFacts.pow_2, RealFacts.pow_3.
  pose proof ln_293_le as L.
  set (l := ln 293.15) in *.
  match goal with |- Rtrigo_def.exp ?x / _ < _ => set (X := x) end.
  assert (HX : X <= 10) by (unfold X; lra).
  pose proof exp_10_le. pose proof (exp_mono X 10 HX).
  lra.
Qed.

(** *** C6: humidity ratio and relative humidity *)

Lemma part_press_hum_rat2 (Tdb RH P : R) :
  0 <= RH -> RH * sat_press Tdb < P ->
  part_press P (hum_rat2 Tdb RH P) = RH * sat_press Tdb.
Proof.
  intros HRH HP. pose proof (sat_press_pos Tdb) as Hs.
  unfold part_press, hum_rat2. to_R.
  set (Pws := sat_press Tdb) in *.
  assert (0 <= RH * Pws) by nra.
  field. split; lra.
Qed.

Lemma rel_hum2_hum_rat2_exact (Tdb RH P : R) :
  0 <= RH -> RH * sat_press Tdb < P ->
  rel_hum2 Tdb (hum_rat2 Tdb RH P) P = RH.
Proof.
  intros HRH HP. pose proof (sat_press_pos Tdb) as Hs.
  unfold rel_hum2. rewrite part_press_hum_rat2 by assumption.
  to_R. field. lra.
Qed.

(** C6.  For a positive pressure, a relative humidity in [[0, 1]] and
    [P > RH * sat_press Tdb], [rel_hum2] applied to the humidity ratio that
    [hum_rat2] computes gives the relative humidity back, within 1e-4 (in
    the real numbers, exactly). *)
Theorem rel_hum2_hum_rat2 (Tdb RH P : R) :
  0 < P -> 0 <= RH <= 1 -> RH * sat_press Tdb < P ->
  Rabs (rel_hum2 Tdb (hum_rat2 Tdb RH P) P - RH) <= 0.0001.
Proof.
  intros _ [HRH _] HP.
  rewrite rel_hum2_hum_rat2_exact by assumption.
  replace (RH - RH) with 0 by lra. rewrite Rabs_R0. lra.
Qed.

Lemma rel_hum2_hum_rat2_witness :
  0 < 101.325 /\ 0 <= 0.5 <= 1 /\ 0.5 * sat_press 20 < 101.325
  /\ Rabs (rel_hum2 20 (hum_rat2 20 0.5 101.325) 101.325 - 0.5) <= 0.0001.
Proof.
  pose proof sat_press_20 as B. pose proof (sat_press_pos 20) as B0.
  assert (H1 : 0 < 101.325) by lra.
  assert (H2 : 0 <= 0.5 <= 1) by lra.
  assert (H3 : 0.5 * sat_press 20 < 101.325) by lra.
  repeat split; try lra.
  exact (rel_hum2_hum_rat2 20 0.5 101.325 H1 H2 H3).
Defined.

(** *** C3: the wet-bulb solver and [rel_hum] *)

(** At saturation the two humidity-ratio formulas agree. *)
Lemma hum_rat_saturated (Tdb P : R) :
  -100 <= Tdb <= 200 -> hum_rat Tdb Tdb P = hum_rat2 Tdb 1 P.
Proof.
  intros HT. unfold hum_rat, hum_rat2. to_R.
  replace (Tdb - Tdb) with 0 by lra.
  replace (1 * sat_press Tdb) with (sat_press Tdb) by lra.
  replace (62198 / 100000 * 1) with (62198 / 100000) by lra.
  generalize (62198 / 100000 * sat_press Tdb / (P - sat_press Tdb)).
  intros Ws. destruct (Real.leb 0 Tdb); field; lra.
Qed.

Lemma rel_hum_saturated (Tdb P : R) :
  -100 <= Tdb <= 200 -> sat_press Tdb < P -> rel_hum Tdb Tdb P = 1.
Proof.
  intros HT HP. unfold rel_hum. rewrite hum_rat_saturated by assumption.
  apply (rel_hum2_hum_rat2_exact Tdb 1 P); lra.
Qed.

(** C3 (as the code has it).  Whenever [wet_bulb] returns, it returns
    [Tdb], and [rel_hum] of that is 1 whatever [RH] was: for a relative
    humidity below 0.9999 the round trip misses it by more than the
    solver's tolerance. *)
Theorem wet_bulb_round_trip fuel junk (Tdb RH P : R) :
  -100 <= Tdb <= 200 -> sat_press Tdb < P -> RH < 0.9999 ->
  match wet_bulb fuel junk Tdb RH P with
  | None => True
  | Some Twb =>
      Twb = Tdb /\ rel_hum Tdb Twb P = 1
      /\ Rabs (rel_hum Tdb Twb P - RH) > 0.00001 * Rabs RH
  end.
Proof.
  intros HT HP HRH.
  destruct (wet_bulb fuel junk Tdb RH P) as [Twb|] eqn:E; [|exact I].
  unfold wet_bulb in E. apply wet_bulb_loop_returns in E. subst Twb.
  rewrite rel_hum_saturated by assumption.
  repeat split. rewrite Rabs_pos_eq by lra.
  destruct (Rle_dec 0 RH).
  - rewrite Rabs_pos_eq; lra.
  - rewrite Rabs_left; lra.
Qed.

Lemma zero_div (x : R) : 0 / x = 0.
Proof. unfold Rdiv. apply Rmult_0_l. Qed.


(** Above freezing [sat_press] is the liquid correlation. *)
Lemma sat_press_liquid (t : R) :
  0 < t ->
  sat_press t =
  Rtrigo_def.exp
    (-5800.2206 / (t + 273.15) + 1.3914993 + -0.048640239 * (t + 273.15)
     + 0.000041764768 * ((t + 273.15) * (t + 273.15))
     + -0.000000014452093 * ((t + 273.15) * (t + 273.15) * (t + 273.15))
     + 6.5459673 * ln (t + 273.15)) / 1000.
Proof.
  intros Ht. unfold sat_press. to_R. dec_R.
  destruct (Real.leb (t + 27315 / 100) (27315 / 100)) eqn:E.
  { apply RealFacts.leb_true in E. lra. }
  now rewrite RealFacts.pow_2, RealFacts.pow_3.
Qed.

(** From 15 to 20 degrees Celsius the saturation pressure grows by more
    than a fifth. *)
Lemma sat_press_15_20 : sat_press 15 * 1.2 <= sat_press 20.
Proof.
  rewrite !sat_press_liquid by lra.
  replace (15 + 273.15) with 288.15 by lra.
  replace (20 + 273.15) with 293.15 by lra.
  assert (L : ln 288.15 <= ln 293.15) by (left; apply ln_increasing; lra).
  set (l1 := ln 288.15) in *. set (l2 := ln 293.15) in *.
  match goal with
  | |- Rtrigo_def.exp ?a / _ * _ <= Rtrigo_def.exp ?b / _ =>
      set (X1 := a); set (X2 := b)
  end.
  assert (D : X1 + 0.2 <= X2) by (unfold X1, X2; lra).
  pose proof (exp_mono _ _ D) as M. rewrite exp_plus in M.
  pose proof (exp_ineq1_le 0.2). pose proof (exp_pos X1).
  nra.
Qed.

(** [exp 5.5 <= 288.15], by squaring [1 - 5.5/128 <= exp (- 5.5/128)] seven
    times. *)
Lemma exp_neg_5_5_ge : 0.00361861 <= Rtrigo_def.exp (-5.5).
Proof.
  pose proof (exp_ineq1_le (-5.5 / 128)) as H0.
  pose proof (exp_double (-5.5 / 128)) as E1.
  pose proof (exp_double (-5.5 / 64)) as E2.
  pose proof (exp_double (-5.5 / 32)) as E3.
  pose proof (exp_double (-5.5 / 16)) as E4.
  pose proof (exp_double (-5.5 / 8)) as E5.
  pose proof (exp_double (-5.5 / 4)) as E6.
  pose proof (exp_double (-5.5 / 2)) as E7.
  replace (-5.5 / 128 + -5.5 / 128) with (-5.5 / 64) in E1 by lra.
  replace (-5.5 / 64 + -5.5 / 64) with (-5.5 / 32) in E2 by lra.
  replace (-5.5 / 32 + -5.5 / 32) with (-5.5 / 16) in E3 by lra.
  replace (-5.5 / 16 + -5.5 / 16) with (-5.5 / 8) in E4 by lra.
  replace (-5.5 / 8 + -5.5 / 8) with (-5.5 / 4) in E5 by lra.
  replace (-5.5 / 4 + -5.5 / 4) with (-5.5 / 2) in E6 by lra.
  replace (-5.5 / 2 + -5.5 / 2) with (-5.5) in E7 by lra.
  set (a0 := Rtrigo_def.exp (-5.5 / 128)) in *.
  set (a1 := Rtrigo_def.exp (-5.5 / 64)) in *.
  set (a2 := Rtrigo_def.exp (-5.5 / 32)) in *.
  set (a3 := Rtrigo_def.exp (-5.5 / 16)) in *.
  set (a4 := Rtrigo_def.exp (-5.5 / 8)) in *.
  set (a5 := Rtrigo_def.exp (-5.5 / 4)) in *.
  set (a6 := Rtrigo_def.exp (-5.5 / 2)) in *.
  assert (0.95703125 <= a0) by lra.
  assert (0.91590881 <= a1) by nra.
  assert (0.83888894 <= a2) by nra.
  assert (0.70373465 <= a3) by nra.
  assert (0.49524245 <= a4) by nra.
  assert (0.24526508 <= a5) by nra.
  assert (0.06015495 <= a6) by nra.
  nra.
Qed.

Lemma ln_288_ge : 5.5 <= ln 288.15.
Proof.
  rewrite <- (ln_exp 5.5).
  pose proof exp_neg_5_5_ge as B. pose proof (exp_pos 5.5) as P0.
  assert (E : Rtrigo_def.exp 5.5 * Rtrigo_def.exp (-5.5) = 1).
  { rewrite <- exp_plus. replace (5.5 + -5.5) with 0 by lra. apply exp_0. }
  assert (U : Rtrigo_def.exp 5.5 < 288.15) by nra.
  left. apply ln_increasing; lra.
Qed.

(** At 15 degrees Celsius the saturation pressure is above 0.4 kPa (it is
    about 1.7 kPa). *)
Lemma sat_press_15 : 0.4 < sat_press 15.
Proof.
  rewrite sat_press_liquid by lra.
  replace (15 + 273.15) with 288.15 by lra.
  pose proof ln_288_ge as L. set (l := ln 288.15) in *.
  match goal with |- _ < Rtrigo_def.exp ?x / _ => set (X := x) end.
  assert (HX : 6 + 0.37 <= X) by (unfold X; lra).
  pose proof (exp_mono _ _ HX) as M. rewrite exp_plus in M.
  pose proof exp_6_ge. pose proof (exp_ineq1_le 0.37).
  nra.
Qed.

(** [hum_rat2] undoes [rel_hum2]. *)
Lemma hum_rat2_rel_hum2 (Tdb W P : R) :
  P <> 0 -> 0.62198 + W <> 0 -> hum_rat2 Tdb (rel_hum2 Tdb W P) P = W.
Proof.
  intros HP HW. pose proof (sat_press_pos Tdb) as Hs.
  unfold hum_rat2, rel_hum2, part_press. to_R. dec_R.
  set (p := sat_press Tdb) in *.
  field. repeat split; try lra.
Qed.

Lemma div_lt (a b d : R) : 0 < d -> a < b * d -> a / d < b.
Proof.
  intros Hd H. replace b with (b * d / d) by (field; lra).
  unfold Rdiv. apply Rmult_lt_compat_r; [now apply Rinv_0_lt_compat | exact H].
Qed.

Lemma lt_div (a b d : R) : 0 < d -> a * d < b -> a < b / d.
Proof.
  intros Hd H. replace a with (a * d / d) by (field; lra).
  unfold Rdiv. apply Rmult_lt_compat_r; [now apply Rinv_0_lt_compat | exact H].
Qed.

(** Air at 20 degrees Celsius dry bulb, 15 wet bulb and 101.325 kPa holds
    water, and is not saturated. *)
Lemma hum_rat_20_15 :
  let W := hum_rat 20 15 101.325 in
  0 < W /\ 0 < rel_hum2 20 W 101.325 < 0.9999.
Proof.
  pose proof sat_press_15_20 as Q. pose proof sat_press_20 as B.
  pose proof sat_press_15 as Q0.
  unfold rel_hum2, part_press, hum_rat. to_R. dec_R.
  destruct (Real.leb 0 20) eqn:E;
    [|apply RealFacts.leb_false in E; lra].
  set (q := sat_press 15) in *. set (p := sat_press 20) in *.
  set (Ws := 62198 / 100000 * q / (101325 / 1000 - q)).
  assert (HWs : 0 < Ws) by (apply Rdiv_lt_0_compat; lra).
  assert (HWq : Ws * (101325 / 1000 - q) = 62198 / 100000 * q)
    by (unfold Ws; field; lra).
  assert (HWl : 0.0024 < Ws) by nra.
  set (W := (_ - _) / _).
  assert (HW : 0 < W < Ws).
  { unfold W. split.
    - apply lt_div; lra.
    - apply div_lt; lra. }
  split; [lra|]. split.
  - apply Rdiv_lt_0_compat; [|lra]. apply Rdiv_lt_0_compat; nra.
  - apply div_lt; [lra|]. apply div_lt; [lra|]. nra.
Qed.

(** The value that [wet_bulb] returns does not pass the test that ends its
    loop, unless the air is saturated. *)
Lemma wet_bulb_result_fails_test fuel junk (Tdb RH P Twb : R) :
  -100 <= Tdb <= 200 -> sat_press Tdb < P -> 0 < RH < 0.9999 ->
  wet_bulb fuel junk Tdb RH P = Some Twb ->
  let W_normal := hum_rat2 Tdb RH P in
  Rabs ((hum_rat Tdb Twb P - W_normal) / W_normal) > 0.00001.
Proof.
  intros HT HP HRH E W_normal.
  unfold wet_bulb in E. apply wet_bulb_loop_returns in E. subst Twb.
  rewrite hum_rat_saturated by assumption.
  pose proof (sat_press_pos Tdb) as Hs.
  unfold W_normal, hum_rat2. to_R. dec_R.
  set (p := sat_press Tdb) in *.
  replace ((62198 / 100000 * 1 * p / (P - 1 * p)
            - 62198 / 100000 * RH * p / (P - RH * p))
           / (62198 / 100000 * RH * p / (P - RH * p)))
    with (P * (1 - RH) / (RH * (P - p))) by (field; nra).
  assert (0 < RH * (P - p)) by nra.
  rewrite Rabs_pos_eq.
  - apply Rlt_gt. apply lt_div; [assumption|]. nra.
  - left. apply Rdiv_lt_0_compat; nra.
Qed.

(** A run on air that is not saturated.  The relative humidity is that of
    air at 20 degrees Celsius dry bulb and 15 wet bulb; the variable of the
    loop body holds the value from which the Newton update is 15.  The
    humidity ratio at 15 passes the test and the loop exits; what is
    returned is 20. *)
Lemma wet_bulb_exits_unsaturated :
  let RH := rel_hum 20 15 101.325 in
  let W0 := hum_rat 20 20 101.325 in
  let dw := (W0 - hum_rat 20 (20 - 0.001) 101.325) / 0.001 in
  let junk (_ : nat) := 15 + (W0 - hum_rat 20 15 101.325) / dw in
  0 < RH < 0.9999
  /\ junk 0%nat - (W0 - hum_rat2 20 RH 101.325) / dw = 15
  /\ wet_bulb 1 junk 20 RH 101.325 = Some 20.
Proof.
  intros RH W0 dw junk.
  destruct hum_rat_20_15 as [HW HRH].
  split; [exact HRH|].
  assert (EW : hum_rat2 20 RH 101.325 = hum_rat 20 15 101.325).
  { unfold RH, rel_hum. apply hum_rat2_rel_hum2; lra. }
  rewrite EW. split; [unfold junk; lra|].
  unfold wet_bulb, wet_bulb_loop.
  rewrite EW. unfold junk, dw, W0. to_R. dec_R.
  match goal with
  | |- context [hum_rat 20 (15 + ?y - ?y) ?P] =>
      replace (15 + y - y) with 15 by lra
  end.
  match goal with
  | |- context [Rabs ((?w - ?w) / ?w)] =>
      replace (w - w) with 0 by lra
  end.
  rewrite zero_div, Rabs_R0.
  destruct (Real.ltb _ _) eqn:L; [|reflexivity].
  apply RealFacts.ltb_true in L. lra.
Qed.

Lemma wet_bulb_round_trip_witness :
  let RH := rel_hum 20 15 101.325 in
  let W0 := hum_rat 20 20 101.325 in
  let dw := (W0 - hum_rat 20 (20 - 0.001) 101.325) / 0.001 in
  let junk (_ : nat) := 15 + (W0 - hum_rat 20 15 101.325) / dw in
  -100 <= 20 <= 200 /\ sat_press 20 < 101.325 /\ 0 < RH < 0.9999
  /\ wet_bulb 1 junk 20 RH 101.325 = Some 20
  /\ rel_hum 20 20 101.325 = 1
  /\ Rabs (rel_hum 20 20 101.325 - RH) > 0.00001 * Rabs RH.
Proof.
  intros RH W0 dw junk.
  destruct wet_bulb_exits_unsaturated as (H3 & _ & E).
  fold RH W0 dw junk in H3, E.
  pose proof sat_press_20 as B.
  assert (H1 : -100 <= 20 <= 200) by lra.
  assert (H2 : sat_press 20 < 101.325) by lra.
  pose proof (wet_bulb_round_trip 1 junk 20 RH 101.325 H1 H2 (proj2 H3))
    as T.
  rewrite E in T. destruct T as (_ & T1 & T2).
  repeat split; try assumption; lra.
Defined.

(** *** C4: the unit conversions, there and back *)

Ltac run_stage :=
  cbv [convert_P convert_Tdb convert_in convert_out round_trip_Tdb
       round_trip_P frame_of normalise denormalise switch fall_through
       input_SI input_IP output_IP seq assign skip option_map body break
       label Var.P Var.Tdb Var.Twb Var.Dew Var.RH Var.W Var.h Var.out
       Var.set_P Var.set_Tdb Var.set_Twb Var.set_Dew Var.set_RH Var.set_W
       Var.set_h Var.set_out Z.eqb Pos.eqb].

(** The pressure comes back changed by two parts in a million: the output
    conversion divides by [4.448230531] what the input conversion
    multiplied by [4.4482216152605]. *)
Lemma round_trip_P_factor (p : R) :
  round_trip_P p = Some (p * (4.4482216152605 / 4.448230531) / 1000).
Proof.
  run_stage. to_R. rewrite RealFacts.pow_2. f_equal. lra.
Qed.

(** C4 (as the code has it).  A pressure other than 0, converted to
    Imperial units by the output conversion and back by the input
    conversion, does not return: it comes back multiplied by
    [4.4482216152605 / 4.448230531], which is off by more than one part in
    a million, far beyond rounding.  The input conversion, on the line
    that says "Conversion factor exact", has the pound-force as
    4.4482216152605 N; the output conversion has 4.448230531. *)
Theorem pressure_round_trip (p : R) :
  p <> 0 ->
  convert_out 5 0 p = Some (p * (0.0254 * 0.0254) / 4.448230531)
  /\ convert_P 0 (p * (0.0254 * 0.0254) / 4.448230531)
     = Some (p * (4.4482216152605 / 4.448230531) / 1000)
  /\ convert_P 1 p = Some (p / 1000)
  /\ Rabs (p * (4.4482216152605 / 4.448230531) / 1000 - p / 1000)
     > 0.000001 * Rabs (p / 1000).
Proof.
  intros Hp. split; [|split; [|split]].
  - run_stage. to_R. rewrite RealFacts.pow_2. f_equal; lra.
  - run_stage. to_R. rewrite RealFacts.pow_2. f_equal; lra.
  - run_stage. to_R. reflexivity.
  - replace (p * (4.4482216152605 / 4.448230531) / 1000 - p / 1000)
      with (p / 1000 * (4.4482216152605 / 4.448230531 - 1)) by lra.
    rewrite Rabs_mult.
    assert (0 < Rabs (p / 1000)) by (apply Rabs_pos_lt; lra).
    rewrite (Rabs_left (4.4482216152605 / 4.448230531 - 1)) by lra.
    nra.
Qed.

(** 1000 Pa goes out as about 0.145 psi and comes back as 0.999998 kPa,
    not as the 1 kPa that 1000 Pa is. *)
Lemma pressure_round_trip_witness :
  1000 <> 0
  /\ convert_out 5 0 1000 = Some (1000 * (0.0254 * 0.0254) / 4.448230531)
  /\ convert_P 0 (1000 * (0.0254 * 0.0254) / 4.448230531)
     = Some (1000 * (4.4482216152605 / 4.448230531) / 1000)
  /\ convert_P 1 1000 = Some (1000 / 1000)
  /\ Rabs (1000 * (4.4482216152605 / 4.448230531) / 1000 - 1000 / 1000)
     > 0.000001 * Rabs (1000 / 1000).
Proof.
  assert (Hp : 1000 <> 0) by lra.
  split; [exact Hp|].
  exact (pressure_round_trip 1000 Hp).
Defined.

(** 1000 Pa, in closed form. *)
Lemma pressure_round_trip_off :
  round_trip_P 1000 = Some (4.4482216152605 / 4.448230531)
  /\ convert_P 1 1000 = Some 1
  /\ Rabs (4.4482216152605 / 4.448230531 - 1) > 0.000001 * Rabs 1.
Proof.
  split; [rewrite round_trip_P_factor; f_equal; lra|].
  split; [run_stage; to_R; f_equal; lra|].
  rewrite Rabs_R1, Rabs_left; lra.
Qed.

(** *** The other conversions, there and back *)

Lemma round_trip_temperature (t : R) :
  round_trip_Tdb 1 t = Some t /\ round_trip_Tdb 2 t = Some t.
Proof. split; run_stage; to_R; f_equal; field. Qed.

Lemma dimensionless_unchanged (v : R) (n : Z) :
  convert_out 3 0 v = Some v /\ convert_out 4 0 v = Some v
  /\ convert_out 6 0 v = Some v
  /\ convert_in (@Var.RH R) 3 0 n = Some (IZR n)
  /\ convert_in (@Var.W R) 4 0 n = Some (IZR n).
Proof. repeat split. Qed.

Lemma round_trip_enthalpy (n : Z) :
  exists h_SI h_IP : R,
    convert_in (@Var.h R) 7 0 n = Some h_SI
    /\ convert_out 7 0 h_SI = Some h_IP
    /\ Rabs (h_IP - IZR n) <= 0.000000001.
Proof.
  eexists. eexists. split; [|split].
  - run_stage. to_R. reflexivity.
  - run_stage. to_R. reflexivity.
  - generalize (IZR n). intros x. apply Rabs_le. lra.
Qed.

Lemma volume_density_reciprocal (v rho : R) :
  exists v' rho' : R,
    convert_out 9 0 v = Some v' /\ convert_out 10 0 rho = Some rho'
    /\ v' * rho' = v * rho.
Proof.
  eexists. eexists. split; [|split].
  - run_stage. to_R. reflexivity.
  - run_stage. to_R. reflexivity.
  - rewrite RealFacts.pow_3. field.
Qed.

(** The conversions other than that of pressure, over the real numbers:
    a temperature returns; relative humidity, humidity ratio and degree of
    saturation are not converted; an enthalpy read from an Imperial integer
    returns within 1e-9 (the constant added on output has two more digits
    than the one subtracted on input); specific volume and density, which
    have no input conversion, are scaled by reciprocal factors. *)
Theorem unit_conversions_round_trip :
  (forall t : R, round_trip_Tdb 1 t = Some t /\ round_trip_Tdb 2 t = Some t)
  /\ (forall (v : R) (n : Z),
        convert_out 3 0 v = Some v /\ convert_out 4 0 v = Some v
        /\ convert_out 6 0 v = Some v
        /\ convert_in (@Var.RH R) 3 0 n = Some (IZR n)
        /\ convert_in (@Var.W R) 4 0 n = Some (IZR n))
  /\ (forall n : Z, exists h_SI h_IP : R,
        convert_in (@Var.h R) 7 0 n = Some h_SI
        /\ convert_out 7 0 h_SI = Some h_IP
        /\ Rabs (h_IP - IZR n) <= 0.000000001)
  /\ (forall v rho : R, exists v' rho' : R,
        convert_out 9 0 v = Some v' /\ convert_out 10 0 rho = Some rho'
        /\ v' * rho' = v * rho).
Proof.
  split; [exact round_trip_temperature|].
  split; [exact dimensionless_unchanged|].
  split; [exact round_trip_enthalpy | exact volume_density_reciprocal].
Qed.

(** *** The branch theorems at the real numbers *)

Lemma sat_press_regimes_witness :
  (Real.leb (-5 + 273.15) 273.15 = true /\
   sat_press (-5) =
   Rtrigo_def.exp
     (-5674.5359 / (-5 + 273.15) + 6.3925247 + -0.009677843 * (-5 + 273.15)
      + 0.00000062215701 * Real.pow (-5 + 273.15) 2
      + 2.0747825E-09 * Real.pow (-5 + 273.15) 3
      + -9.484024E-13 * Real.pow (-5 + 273.15) 4
      + 4.1635019 * ln (-5 + 273.15)) / 1000)
  /\
  (Real.ltb 273.15 (20 + 273.15) = true /\
   sat_press 20 =
   Rtrigo_def.exp
     (-5800.2206 / (20 + 273.15) + 1.3914993 + -0.048640239 * (20 + 273.15)
      + 0.000041764768 * Real.pow (20 + 273.15) 2
      + -0.000000014452093 * Real.pow (20 + 273.15) 3
      + 6.5459673 * ln (20 + 273.15)) / 1000).
Proof.
  assert (L : Real.leb (-5 + 273.15) 273.15 = true)
    by (apply RealFacts.leb_true; lra).
  assert (G : Real.ltb 273.15 (20 + 273.15) = true)
    by (apply RealFacts.ltb_true; lra).
  split; (split; [assumption|]).
  - rewrite (proj1 (sat_press_regimes (num := R) (-5))).
    + to_R. dec_R. first [reflexivity | f_equal; f_equal; lra].
    + to_R. apply RealFacts.leb_true. lra.
  - rewrite (proj2 (sat_press_regimes (num := R) 20)).
    + to_R. dec_R. first [reflexivity | f_equal; f_equal; lra].
    + to_R. apply RealFacts.ltb_true. lra.
Defined.

Lemma hum_rat_regimes_witness :
  (Real.leb 0 24 = true /\
   hum_rat 24 17 101.325 =
   ((2501 - 2.326 * 17)
      * (0.62198 * sat_press 17 / (101.325 - sat_press 17))
    - 1.006 * (24 - 17)) / (2501 + 1.86 * 24 - 4.186 * 17))
  /\
  (Real.ltb (-5) 0 = true /\
   hum_rat (-5) (-6) 101.325 =
   ((2830 - 0.24 * -6)
      * (0.62198 * sat_press (-6) / (101.325 - sat_press (-6)))
    - 1.006 * (-5 - -6)) / (2830 + 1.86 * -5 - 2.1 * -6)).
Proof.
  assert (L : Real.leb 0 24 = true) by (apply RealFacts.leb_true; lra).
  assert (G : Real.ltb (-5) 0 = true) by (apply RealFacts.ltb_true; lra).
  split; (split; [assumption|]).
  - rewrite (proj1 (hum_rat_regimes (num := R) 24 17 101.325)).
    + to_R. dec_R. reflexivity.
    + to_R. apply RealFacts.leb_true. lra.
  - rewrite (proj2 (proj2 (hum_rat_regimes (num := R) (-5) (-6) 101.325))).
    + to_R. dec_R. reflexivity.
    + to_R. apply RealFacts.ltb_true. lra.
Defined.

Lemma part_press_2 (P : R) : part_press P 0.62198 = P / 2.
Proof. unfold part_press. to_R. dec_R. field. Qed.

Lemma dew_point_selection_witness :
  dew_point 2 0.62198 = 6.9969
  /\ dew_point (2 * Rtrigo_def.exp (-1)) 0.62198 = -6.0221.
Proof.
  split.
  - rewrite (proj1 (dew_point_selection (num := R) 2 0.62198));
      rewrite part_press_2; replace (2 / 2) with 1 by lra;
      to_R; rewrite ln_1, RealFacts.pow_2, RealFacts.pow_3,
        RealFacts.pow_one.
    + lra.
    + apply RealFacts.leb_true. lra.
  - pose proof (exp_pos (-1)) as E0.
    assert (E1 : Rtrigo_def.exp (-1) <= 1)
      by (rewrite <- exp_0; apply exp_mono; lra).
    assert (Q : 0 < Real.pow (Rtrigo_def.exp (-1)) (1984 / 10000) <= 1)
      by (apply RealFacts.pow_frac; lra).
    rewrite (proj2 (dew_point_selection (num := R) _ 0.62198));
      rewrite part_press_2;
      replace (2 * Rtrigo_def.exp (-1) / 2) with (Rtrigo_def.exp (-1))
        by lra;
      to_R; rewrite ln_exp, RealFacts.pow_2, ?RealFacts.pow_3.
    + lra.
    + apply RealFacts.leb_false. lra.
Defined.

(** *** The dispatcher at the real numbers *)

Ltac run_psych :=
  cbv [psych normalise resolve denormalise switch fall_through output
       find_RH find_W input_SI input_IP output_IP h_to_W enthalpy_air_h2o
       seq assign skip option_map body break label frame_of
       Var.P Var.Tdb Var.Twb Var.Dew Var.RH Var.W Var.h Var.out
       Var.set_P Var.set_Tdb Var.set_Twb Var.set_Dew Var.set_RH Var.set_W
       Var.set_h Var.set_out Z.eqb Pos.eqb orb].

(** Air at 14.696 psi and 68 degrees Fahrenheit with a dew point of 59,
    enthalpy asked for.  With [SIq = 2] pressure, dry bulb and dew point
    are read as Imperial and the enthalpy is returned in kJ/kg; with
    [SIq = 0] that enthalpy is converted to BTU/lb; with [SIq = 1] the
    same numbers are read as Pa and degrees Celsius. *)
Lemma psych_unit_selector_witness :
  let P_kPa := 14.696 * 4.4482216152605 / (0.0254 * 0.0254) / 1000 in
  let W := 0.621945 * sat_press 15 / (P_kPa - sat_press 15) in
  let W' := 0.621945 * sat_press 59 / (14.696 / 1000 - sat_press 59) in
  psych 10 (fun _ => 0) (frame_of 0) 14.696 68 59 2 7 2
  = Some (enthalpy_air_h2o 20 W)
  /\ psych 10 (fun _ => 0) (frame_of 0) 14.696 68 59 2 7 0
     = Some ((enthalpy_air_h2o 20 W + 17.88444444444)
             * 0.45359237 / 1.055056)
  /\ psych 10 (fun _ => 0) (frame_of 0) 14.696 68 59 2 7 1
     = Some (enthalpy_air_h2o 68 W').
Proof.
  intros P_kPa W W'.
  assert (H20 : 2%Z <> 0%Z) by discriminate.
  assert (H21 : 2%Z <> 1%Z) by discriminate.
  assert (ET : (68 - 32) / (18 / 10) = 20) by lra.
  assert (ED : 27 / (18 / 10) = 15) by lra.
  assert (EP : 14696 / 1000 * (44482216152605 / 10000000000000)
               / (254 / 10000 * (254 / 10000)) / 1000 = P_kPa)
    by (unfold P_kPa; lra).
  destruct (psych_unit_selector (num := R) 10 (fun _ => 0) (frame_of 0)
              14.696 68 59 2 7 2) as (_ & _ & E2 & _).
  destruct (psych_unit_selector (num := R) 10 (fun _ => 0) (frame_of 0)
              14.696 68 59 2 7 0) as (_ & E0 & _).
  destruct (psych_unit_selector (num := R) 10 (fun _ => 0) (frame_of 0)
              14.696 68 59 2 7 1) as (E1 & _).
  rewrite (E2 H20 H21), (E0 eq_refl), (E1 eq_refl).
  run_psych. change (int_sub 59 32) with 27%Z.
  to_R. dec_R. rewrite !RealFacts.pow_2, ET, ED, EP.
  repeat split.
Defined.

(** With the humidity ratio given as 1 and asked for, in SI units at 20
    degrees Celsius, the result is negative whenever [h] holds 0. *)
Lemma psych_W_given_W_asked_at_1 fuel junk :
  exists W : R,
    psych fuel junk (frame_of 0) 101325 20 1 4 4 1 = Some W /\ W < 0.
Proof.
  run_psych. to_R.
  eexists. split; [reflexivity|].
  apply Ropp_lt_cancel. rewrite Ropp_0.
  rewrite <- Rdiv_opp_r. apply Rdiv_lt_0_compat; lra.
Qed.

End RealReading.

(** ** Runs in binary64 *)

Section Binary64Runs.

Variables (c_exp c_log c_abs : float -> float).
Variable c_pow : float -> float -> float.

Local Abbreviation dbl := (Binary64.double c_exp c_log c_pow c_abs).

Local Open Scope float_scope.
#[local] Set Warnings "-inexact-float".

(** humidity ratio 1 given and asked for, [h] holding 0 *)
Lemma run_W_given_W_asked fuel junk :
  psych (H := dbl) fuel junk (frame_of 0) 101325 20 1 4 4 1
  = Some (-0.0079268773146324179).
Proof. reflexivity. Qed.

(** entropy, in both unit systems *)
Lemma run_entropy fuel junk :
  psych (H := dbl) fuel junk (frame_of 0) 101325 20 1 3 8 1 = Some (-9999)
  /\ psych (H := dbl) fuel junk (frame_of 0) 14.696 68 1 3 8 0
     = Some (-9999).
Proof. split; reflexivity. Qed.

(** an enthalpy of 20 given and asked for, under the selectors 1, 0 and 2 *)
Lemma run_selectors fuel junk :
  psych (H := dbl) fuel junk (frame_of 0) 101325 20 20 7 7 1 = Some 20
  /\ psych (H := dbl) fuel junk (frame_of 0) 14.696 68 20 7 7 0
     = Some 20.000000000189171
  /\ psych (H := dbl) fuel junk (frame_of 0) 14.696 68 20 7 7 2
     = Some 28.635562054345645.
Proof. repeat split; vm_compute; reflexivity. Qed.

End Binary64Runs.

(** ** More of the dispatcher, in every arithmetic *)

Section Selectors.

Context {num : Type} `{Double num}.

(** *** A [switch] with no matching label *)

Lemma switch_no_match {S} (tag : Z) (cs : list (case S)) (s : S) :
  Forall (fun c => label c <> tag) cs -> switch tag cs s = Some s.
Proof.
  induction 1 as [|c cs Hc _ IH]; simpl; [reflexivity|].
  destruct (Z.eqb_spec tag (label c)) as [E|_]; [now elim Hc | exact IH].
Qed.

(** *** What each stage leaves alone *)

Lemma input_SI_keeps {V} (get : @state num -> V) inValue :
  (forall v s, get (Var.set_Twb v s) = get s) ->
  (forall v s, get (Var.set_Dew v s) = get s) ->
  (forall v s, get (Var.set_RH v s) = get s) ->
  (forall v s, get (Var.set_W v s) = get s) ->
  (forall v s, get (Var.set_h v s) = get s) ->
  Forall (keeps get) (input_SI inValue).
Proof.
  intros H1 H2 H3 H4 H5.
  repeat constructor; intros s s' [= <-]; auto.
Qed.

Lemma normalise_keeps {V} (get : @state num -> V) inValue inType SIq s s' :
  (forall v s, get (Var.set_P v s) = get s) ->
  (forall v s, get (Var.set_Tdb v s) = get s) ->
  (forall v s, get (Var.set_Twb v s) = get s) ->
  (forall v s, get (Var.set_Dew v s) = get s) ->
  (forall v s, get (Var.set_RH v s) = get s) ->
  (forall v s, get (Var.set_W v s) = get s) ->
  (forall v s, get (Var.set_h v s) = get s) ->
  normalise inValue inType SIq s = Some s' -> get s' = get s.
Proof.
  intros HP HT H1 H2 H3 H4 H5. unfold normalise, seq, assign.
  destruct (SIq =? 1)%Z; intros E.
  - apply (switch_keeps get) in E; [|now apply input_SI_keeps].
    now rewrite E, HP.
  - apply (switch_keeps get) in E; [|now apply input_IP_keeps].
    now rewrite E, HP, HT.
Qed.

Lemma find_RH_keeps {V} (get : @state num -> V) :
  (forall v s, get (Var.set_RH v s) = get s) ->
  (forall v s, get (Var.set_W v s) = get s) ->
  Forall (keeps get) find_RH.
Proof.
  intros H3 H4.
  repeat constructor; intros s s' [= <-]; rewrite ?H3, ?H4; auto.
Qed.

Lemma find_W_keeps {V} (get : @state num -> V) :
  (forall v s, get (Var.set_W v s) = get s) ->
  Forall (keeps get) find_W.
Proof.
  intros H4.
  repeat constructor; intros s s' [= <-]; rewrite ?H4; auto.
Qed.

Lemma resolve_keeps {V} (get : @state num -> V) inType outType s s' :
  (forall v s, get (Var.set_RH v s) = get s) ->
  (forall v s, get (Var.set_W v s) = get s) ->
  resolve inType outType s = Some s' -> get s' = get s.
Proof.
  intros H3 H4. unfold resolve. destruct (_ || _)%bool; intros E.
  - apply (switch_keeps get) in E; [exact E | now apply find_RH_keeps].
  - apply (switch_keeps get) in E; [exact E | now apply find_W_keeps].
Qed.

(** *** Selectors outside the documented set *)

Lemma output_no_match fuel junk outType (s : @state num) :
  (outType < 1 \/ 10 < outType)%Z ->
  switch outType (output fuel junk) s = Some s.
Proof.
  intros Ho. apply switch_no_match. repeat constructor; simpl; lia.
Qed.

Lemma output_IP_no_match outType (s : @state num) :
  (outType < 1 \/ 10 < outType)%Z -> switch outType output_IP s = Some s.
Proof.
  intros Ho. apply switch_no_match. repeat constructor; simpl; lia.
Qed.

(** X1.  An [outType] outside 1..10 selects no case of the output
    [switch]: [psych] returns [out] as the call found it, a variable it
    never assigned, whatever the other arguments are. *)
Theorem psych_unknown_output fuel junk init P Tdb inValue inType outType SIq :
  (outType < 1 \/ 10 < outType)%Z ->
  psych fuel junk init P Tdb inValue inType outType SIq
  = Some (Var.out init).
Proof.
  intros Ho. unfold psych, seq.
  destruct (normalise_total inValue inType SIq
              (Var.set_P P (Var.set_Tdb Tdb init))) as [s1 E1].
  rewrite E1. apply (normalise_keeps (@Var.out num)) in E1; try easy.
  destruct (resolve_total inType outType s1) as [s2 E2].
  rewrite E2. apply (resolve_keeps (@Var.out num)) in E2; try easy.
  rewrite (output_no_match fuel junk outType s2 Ho).
  unfold denormalise.
  destruct (SIq =? 0)%Z; [rewrite (output_IP_no_match outType s2 Ho)|];
    simpl; now rewrite E2, E1.
Qed.

Lemma input_no_match inValue inType SIq (s : @state num) :
  inType <> 1%Z -> inType <> 2%Z -> inType <> 3%Z -> inType <> 4%Z ->
  inType <> 7%Z ->
  exists s', normalise inValue inType SIq s = Some s'
    /\ Var.RH s' = Var.RH s /\ Var.W s' = Var.W s.
Proof.
  intros N1 N2 N3 N4 N7.
  destruct (normalise_total inValue inType SIq s) as [s' E].
  exists s'. split; [exact E|]. split.
  - unfold normalise, seq, assign in E. destruct (SIq =? 1)%Z;
      rewrite switch_no_match in E
        by (repeat constructor; simpl; congruence);
      now injection E as <-.
  - unfold normalise, seq, assign in E. destruct (SIq =? 1)%Z;
      rewrite switch_no_match in E
        by (repeat constructor; simpl; congruence);
      now injection E as <-.
Qed.

Lemma resolve_no_match inType outType (s : @state num) :
  inType <> 1%Z -> inType <> 2%Z -> inType <> 3%Z -> inType <> 4%Z ->
  inType <> 7%Z ->
  resolve inType outType s = Some s.
Proof.
  intros N1 N2 N3 N4 N7. unfold resolve.
  destruct (_ || _)%bool; apply switch_no_match;
    repeat constructor; simpl; congruence.
Qed.

(** X2.  An [inType] other than 1, 2, 3, 4 and 7 selects no case of the
    input and resolution switches: asked for the relative humidity or the
    humidity ratio, [psych] returns [RH] or [W] as the call found them,
    variables it never assigned. *)
Theorem psych_unknown_input fuel junk init P Tdb inValue inType SIq :
  inType <> 1%Z -> inType <> 2%Z -> inType <> 3%Z -> inType <> 4%Z ->
  inType <> 7%Z ->
  psych fuel junk init P Tdb inValue inType 3 SIq = Some (Var.RH init)
  /\ psych fuel junk init P Tdb inValue inType 4 SIq = Some (Var.W init).
Proof.
  intros N1 N2 N3 N4 N7. unfold psych, seq.
  destruct (input_no_match inValue inType SIq
              (Var.set_P P (Var.set_Tdb Tdb init)) N1 N2 N3 N4 N7)
    as (s1 & -> & HRH & HW).
  rewrite !resolve_no_match by assumption.
  unfold denormalise. split; destruct (SIq =? 0)%Z; simpl;
    now rewrite ?HRH, ?HW.
Qed.

(** *** Relative humidity given *)

(** X3.  With the relative humidity both given and asked for, [psych]
    returns [inValue] converted to [double], whatever the unit selector
    is. *)
Theorem psych_RH_given_RH_asked fuel junk init P Tdb inValue SIq :
  psych fuel junk init P Tdb inValue 3 3 SIq = Some (of_int inValue).
Proof.
  unfold psych, normalise, denormalise.
  destruct (SIq =? 1)%Z; destruct (SIq =? 0)%Z; reflexivity.
Qed.

(** *** No unassigned variable is read *)

(** X4.  For an input property among wet bulb, dew point, relative
    humidity and enthalpy, and for humidity ratio when relative humidity or
    wet bulb is asked for, every output property 1..10 is computed from
    assigned variables only: the result does not depend on what the
    unassigned variables hold at entry. *)
Theorem psych_reads_assigned fuel junk init init' P Tdb inValue inType
    outType SIq :
  (inType = 1 \/ inType = 2 \/ inType = 3 \/ inType = 7
   \/ (inType = 4 /\ (outType = 1 \/ outType = 3)))%Z ->
  (1 <= outType <= 10)%Z ->
  psych fuel junk init P Tdb inValue inType outType SIq
  = psych fuel junk init' P Tdb inValue inType outType SIq.
Proof.
  intros Hi Ho.
  assert (outType = 1 \/ outType = 2 \/ outType = 3 \/ outType = 4
          \/ outType = 5 \/ outType = 6 \/ outType = 7 \/ outType = 8
          \/ outType = 9 \/ outType = 10)%Z as Ho' by lia.
  clear Ho. unfold psych, normalise, denormalise.
  destruct (SIq =? 1)%Z; destruct (SIq =? 0)%Z;
    destruct Hi as [-> | [-> | [-> | [-> | [-> Hi]]]]];
    repeat (destruct Ho' as [Ho'|Ho']); subst outType;
    try reflexivity;
    try (destruct Hi as [Hi|Hi]; discriminate).
  all: cbv [seq assign switch fall_through output output_IP find_RH find_W
            input_SI input_IP resolve skip option_map body break label
            h_to_W
            Var.P Var.Tdb Var.Twb Var.Dew Var.RH Var.W Var.h Var.out
            Var.set_P Var.set_Tdb Var.set_Twb Var.set_Dew Var.set_RH
            Var.set_W Var.set_h Var.set_out Z.eqb Pos.eqb orb].
  all: match goal with
    | |- context [wet_bulb ?f ?j ?a ?b ?c] =>
        destruct (wet_bulb f j a b c); reflexivity
    end.
Qed.

(** *** Wet bulb asked for *)

(** The dry bulb after the input stage depends on the dry bulb and the
    selector only. *)
Lemma normalise_Tdb inValue inType SIq (s s' : @state num) :
  normalise inValue inType SIq s = Some s' ->
  convert_Tdb SIq (Var.Tdb s) = Some (Var.Tdb s').
Proof.
  intros E. unfold convert_Tdb.
  destruct (normalise_total 0 0 SIq (frame_of (Var.Tdb s))) as [t Et].
  rewrite Et. simpl. f_equal.
  unfold normalise, seq, assign in E, Et. destruct (SIq =? 1)%Z.
  - apply (switch_keeps (@Var.Tdb num)) in E, Et;
      try (now apply input_SI_keeps).
    now rewrite E, Et.
  - apply (switch_keeps (@Var.Tdb num)) in E, Et;
      try (now apply input_IP_keeps).
    now rewrite E, Et.
Qed.

(** What the output stage makes of [out] depends on [out] only. *)
Lemma denormalise_out outType SIq (s : @state num) :
  option_map (@Var.out num) (denormalise outType SIq s)
  = convert_out outType SIq (Var.out s).
Proof.
  unfold convert_out, denormalise. destruct (SIq =? 0)%Z; [|reflexivity].
  unfold output_IP, switch.
  repeat match goal with
  | |- context [(outType =? ?l)%Z] => destruct (outType =? l)%Z
  end; reflexivity.
Qed.

(** Asked for the wet bulb, [psych] returns, if anything, the dry bulb: as
    the input stage normalised it and as the output stage converts it. *)
Lemma psych_wet_bulb_asked fuel junk init P Tdb inValue inType SIq :
  psych fuel junk init P Tdb inValue inType 1 SIq = None
  \/ exists T : num,
       convert_Tdb SIq Tdb = Some T
       /\ psych fuel junk init P Tdb inValue inType 1 SIq
          = convert_out 1 SIq T.
Proof.
  unfold psych, seq.
  destruct (normalise_total inValue inType SIq
              (Var.set_P P (Var.set_Tdb Tdb init))) as [s1 E1].
  rewrite E1. apply normalise_Tdb in E1. simpl in E1.
  destruct (resolve_total inType 1 s1) as [s2 E2].
  rewrite E2. apply (resolve_keeps (@Var.Tdb num)) in E2; try easy.
  cbv [switch output fall_through body break label Z.eqb Pos.eqb].
  destruct (wet_bulb fuel junk (Var.Tdb s2) (Var.RH s2) (Var.P s2))
    as [Twb|] eqn:Ew; [right | now left].
  unfold wet_bulb in Ew. apply wet_bulb_loop_returns in Ew. subst Twb.
  exists (Var.Tdb s1). split; [exact E1|].
  rewrite denormalise_out. simpl. now rewrite E2.
Qed.

(** *** The two unit systems *)

(** For an input that is not a temperature or an enthalpy the Imperial
    input [switch] does what the SI one does. *)
Lemma input_IP_as_SI inValue inType (s : @state num) :
  inType <> 1%Z -> inType <> 2%Z -> inType <> 7%Z ->
  switch inType (input_IP inValue) s = switch inType (input_SI inValue) s.
Proof.
  intros N1 N2 N7. unfold input_IP, input_SI, switch. simpl label.
  destruct (Z.eqb_spec inType 1); [contradiction|].
  destruct (Z.eqb_spec inType 2); [contradiction|].
  destruct (inType =? 3)%Z; [reflexivity|].
  destruct (inType =? 4)%Z; [reflexivity|].
  destruct (Z.eqb_spec inType 7); [contradiction | reflexivity].
Qed.

(** An output that has no Imperial conversion passes the last stage as it
    is. *)
Lemma denormalise_no_match outType SIq (s : @state num) :
  outType <> 1%Z -> outType <> 2%Z -> outType <> 5%Z -> outType <> 7%Z ->
  outType <> 9%Z -> outType <> 10%Z ->
  denormalise outType SIq s = Some s.
Proof.
  intros N1 N2 N5 N7 N9 N10. unfold denormalise.
  destruct (SIq =? 0)%Z; [|reflexivity].
  apply switch_no_match. repeat constructor; simpl; congruence.
Qed.

End Selectors.

(** ** More of the formulas over the real numbers *)

Ltac unfold_psych :=
  cbv [psych normalise resolve denormalise switch fall_through output
       find_RH find_W input_SI input_IP output_IP h_to_W
       convert_Tdb convert_out convert_P
       seq assign skip option_map body break label frame_of
       Var.P Var.Tdb Var.Twb Var.Dew Var.RH Var.W Var.h Var.out
       Var.set_P Var.set_Tdb Var.set_Twb Var.set_Dew Var.set_RH Var.set_W
       Var.set_h Var.set_out Z.eqb Pos.eqb orb].

Section RealProperties.

Local Open Scope R_scope.

(** *** Wet bulb asked for *)



(** *** The selector theorems at the real numbers *)

Lemma psych_unknown_output_witness :
  (11 < 1 \/ 10 < 11)%Z
  /\ psych 10 (fun _ => 0) (frame_of 7) 101325 20 50 3 11 1 = Some 7.
Proof.
  assert (Ho : (11 < 1 \/ 10 < 11)%Z) by (right; reflexivity).
  split; [exact Ho|].
  exact (psych_unknown_output (num := R) 10 (fun _ => 0) (frame_of 7)
           101325 20 50 3 11 1 Ho).
Defined.

Lemma psych_unknown_input_witness :
  5%Z <> 1%Z /\ 5%Z <> 2%Z /\ 5%Z <> 3%Z /\ 5%Z <> 4%Z /\ 5%Z <> 7%Z
  /\ psych 10 (fun _ => 0) (frame_of 7) 101325 20 50 5 3 1 = Some 7
  /\ psych 10 (fun _ => 0) (frame_of 7) 101325 20 50 5 4 1 = Some 7.
Proof.
  assert (N1 : 5%Z <> 1%Z) by discriminate.
  assert (N2 : 5%Z <> 2%Z) by discriminate.
  assert (N3 : 5%Z <> 3%Z) by discriminate.
  assert (N4 : 5%Z <> 4%Z) by discriminate.
  assert (N7 : 5%Z <> 7%Z) by discriminate.
  repeat (split; [assumption|]).
  exact (psych_unknown_input (num := R) 10 (fun _ => 0) (frame_of 7)
           101325 20 50 5 1 N1 N2 N3 N4 N7).
Defined.

Lemma psych_reads_assigned_witness :
  (3 = 1 \/ 3 = 2 \/ 3 = 3 \/ 3 = 7 \/ (3 = 4 /\ (4 = 1 \/ 4 = 3)))%Z
  /\ (1 <= 4 <= 10)%Z
  /\ psych 10 (fun _ => 0) (frame_of 0) 101325 20 1 3 4 1
     = psych 10 (fun _ => 0) (frame_of 7) 101325 20 1 3 4 1.
Proof.
  assert (Hi : (3 = 1 \/ 3 = 2 \/ 3 = 3 \/ 3 = 7
                \/ (3 = 4 /\ (4 = 1 \/ 4 = 3)))%Z)
    by (right; right; left; reflexivity).
  assert (Ho : (1 <= 4 <= 10)%Z) by lia.
  repeat (split; [assumption|]).
  exact (psych_reads_assigned (num := R) 10 (fun _ => 0) (frame_of 0)
           (frame_of 7) 101325 20 1 3 4 1 Hi Ho).
Defined.

(** *** Enthalpy given *)

(** X6.  With the enthalpy both given and asked for, the humidity ratio
    that [psych] derives from it gives the enthalpy back: exactly in SI
    units, and within 1e-9 in Imperial units, where the constant added on
    output has two more digits than the one subtracted on input.  The dry
    bulb is to be above -100. *)
Theorem psych_h_given_h_asked fuel junk init (P Tdb : R) (inValue : Z) :
  -100 <= Tdb ->
  psych fuel junk init P Tdb inValue 7 7 1 = Some (IZR inValue)
  /\ exists h : R,
       psych fuel junk init P Tdb inValue 7 7 0 = Some h
       /\ Rabs (h - IZR inValue) <= 0.000000001.
Proof.
  intros HT. split.
  - unfold_psych. unfold enthalpy_air_h2o. to_R. dec_R. f_equal.
    field. lra.
  - eexists. split.
    + unfold_psych. unfold enthalpy_air_h2o. to_R. dec_R. reflexivity.
    + generalize (IZR inValue). intros x.
      match goal with
      | |- Rabs (?e - x) <= _ =>
          replace (e - x)
            with ((17.88444444444 - 17.884444444) * 0.45359237 / 1.055056)
      end.
      * apply Rabs_le. lra.
      * dec_R. field. lra.
Qed.

Lemma psych_h_given_h_asked_witness :
  -100 <= 20
  /\ psych 10 (fun _ => 0) (frame_of 0) 101325 20 40 7 7 1 = Some 40
  /\ exists h : R,
       psych 10 (fun _ => 0) (frame_of 0) 101325 20 40 7 7 0 = Some h
       /\ Rabs (h - 40) <= 0.000000001.
Proof.
  assert (HT : -100 <= 20) by lra.
  split; [exact HT|].
  exact (psych_h_given_h_asked 10 (fun _ => 0) (frame_of 0) 101325 20 40 HT).
Defined.

(** *** Humidity ratio given, relative humidity asked for *)

(** X7.  From a humidity ratio [inValue >= 0] at a pressure other than 0,
    [psych] asked for the relative humidity returns what [rel_hum2]
    computes at the pressure in kPa, and [hum_rat2] of that result is the
    humidity ratio again. *)
Theorem psych_W_given_RH_asked fuel junk init (P Tdb : R) (inValue : Z) :
  P <> 0 -> (0 <= inValue)%Z ->
  exists RH : R,
    psych fuel junk init P Tdb inValue 4 3 1 = Some RH
    /\ RH = rel_hum2 Tdb (IZR inValue) (P / 1000)
    /\ hum_rat2 Tdb RH (P / 1000) = IZR inValue.
Proof.
  intros HP HW. apply IZR_le in HW.
  exists (rel_hum2 Tdb (IZR inValue) (P / 1000)).
  split; [reflexivity|]. split; [reflexivity|].
  apply hum_rat2_rel_hum2; lra.
Qed.

Lemma psych_W_given_RH_asked_witness :
  101325 <> 0 /\ (0 <= 1)%Z
  /\ exists RH : R,
       psych 10 (fun _ => 0) (frame_of 0) 101325 20 1 4 3 1 = Some RH
       /\ RH = rel_hum2 20 1 (101325 / 1000)
       /\ hum_rat2 20 RH (101325 / 1000) = 1.
Proof.
  assert (HP : 101325 <> 0) by lra.
  assert (HW : (0 <= 1)%Z) by lia.
  repeat (split; [assumption|]).
  exact (psych_W_given_RH_asked 10 (fun _ => 0) (frame_of 0) 101325 20 1
           HP HW).
Defined.

(** *** Monotonicity of the property functions *)

Lemma div_lt_div (a b c d : R) :
  0 < b -> 0 < d -> a * d < c * b -> a / b < c / d.
Proof.
  intros Hb Hd H. apply div_lt; [assumption|].
  replace (c / d * b) with (c * b / d) by (field; lra).
  apply lt_div; assumption.
Qed.

Lemma div_le_div (a b c d : R) :
  0 < b -> 0 < d -> a * d <= c * b -> a / b <= c / d.
Proof.
  intros Hb Hd [H|H].
  - left. now apply div_lt_div.
  - right. apply (Rmult_eq_reg_r (b * d)); [|nra].
    replace (a / b * (b * d)) with (a * d) by (field; lra).
    replace (c / d * (b * d)) with (c * b) by (field; lra).
    exact H.
Qed.

(** X8.  Below saturation of the total pressure, the humidity ratio of
    [hum_rat2] is not negative and grows strictly with the relative
    humidity. *)
Theorem hum_rat2_increasing (Tdb RH1 RH2 P : R) :
  0 <= RH1 -> RH1 < RH2 -> RH2 * sat_press Tdb < P ->
  0 <= hum_rat2 Tdb RH1 P /\ hum_rat2 Tdb RH1 P < hum_rat2 Tdb RH2 P.
Proof.
  intros H1 H12 HP. pose proof (sat_press_pos Tdb) as Hs.
  unfold hum_rat2. to_R. dec_R.
  set (p := sat_press Tdb) in *.
  assert (0 <= RH1 * p) by nra.
  assert (RH1 * p < RH2 * p) by nra.
  split.
  - apply Rmult_le_pos; [nra|]. left. apply Rinv_0_lt_compat. lra.
  - apply div_lt_div; try lra. nra.
Qed.

Lemma hum_rat2_increasing_witness :
  0 <= 0.3 /\ 0.3 < 0.5 /\ 0.5 * sat_press 20 < 101.325
  /\ 0 <= hum_rat2 20 0.3 101.325
  /\ hum_rat2 20 0.3 101.325 < hum_rat2 20 0.5 101.325.
Proof.
  pose proof sat_press_20 as B. pose proof (sat_press_pos 20) as B0.
  assert (H1 : 0 <= 0.3) by lra.
  assert (H2 : 0.3 < 0.5) by lra.
  assert (H3 : 0.5 * sat_press 20 < 101.325) by lra.
  repeat (split; [assumption|]).
  exact (hum_rat2_increasing 20 0.3 0.5 101.325 H1 H2 H3).
Defined.

(** X9.  At a positive total pressure the partial pressure of water vapour
    that [part_press] computes from a humidity ratio [W >= 0] lies in
    [[0, P)] and grows strictly with [W]. *)
Theorem part_press_bounds (P W1 W2 : R) :
  0 < P -> 0 <= W1 -> W1 < W2 ->
  0 <= part_press P W1 /\ part_press P W1 < part_press P W2
  /\ part_press P W2 < P.
Proof.
  intros HP H1 H12. unfold part_press. to_R. dec_R.
  split; [|split].
  - apply Rmult_le_pos; [nra|]. left. apply Rinv_0_lt_compat. lra.
  - apply div_lt_div; try lra. nra.
  - apply div_lt; [lra|]. nra.
Qed.

Lemma part_press_bounds_witness :
  0 < 101.325 /\ 0 <= 0.01 /\ 0.01 < 0.02
  /\ 0 <= part_press 101.325 0.01
  /\ part_press 101.325 0.01 < part_press 101.325 0.02
  /\ part_press 101.325 0.02 < 101.325.
Proof.
  assert (H1 : 0 < 101.325) by lra.
  assert (H2 : 0 <= 0.01) by lra.
  assert (H3 : 0.01 < 0.02) by lra.
  repeat (split; [assumption|]).
  exact (part_press_bounds 101.325 0.01 0.02 H1 H2 H3).
Defined.

(** X10.  At a positive pressure and above absolute zero the density of
    [dry_air_density] is positive, and it does not grow when the dry bulb
    or the humidity ratio does. *)
Theorem dry_air_density_decreasing (P T1 T2 W1 W2 : R) :
  0 < P -> -273.15 < T1 -> T1 <= T2 -> 0 <= W1 -> W1 <= W2 ->
  0 < dry_air_density P T2 W2
  /\ dry_air_density P T2 W2 <= dry_air_density P T1 W1.
Proof.
  intros HP HT1 HT HW1 HW. unfold dry_air_density. to_R. dec_R.
  set (k1 := 27315 / 100 + T1). set (k2 := 27315 / 100 + T2).
  set (m1 := 1 + 16078 / 10000 * W1). set (m2 := 1 + 16078 / 10000 * W2).
  assert (0 < k1) by (unfold k1; lra).
  assert (k1 <= k2) by (unfold k1, k2; lra).
  assert (1 <= m1) by (unfold m1; lra).
  assert (m1 <= m2) by (unfold m1, m2; lra).
  assert (0 < k1 * m1) by nra.
  assert (k1 * m1 <= k2 * m2) by nra.
  assert (0 < 287055 / 1000 * k1 * m1) by nra.
  assert (0 < 287055 / 1000 * k2 * m2) by nra.
  split.
  - apply Rdiv_lt_0_compat; lra.
  - apply div_le_div; try assumption. nra.
Qed.

Lemma dry_air_density_decreasing_witness :
  0 < 101.325 /\ -273.15 < 10 /\ 10 <= 20 /\ 0 <= 0.005 /\ 0.005 <= 0.01
  /\ 0 < dry_air_density 101.325 20 0.01
  /\ dry_air_density 101.325 20 0.01 <= dry_air_density 101.325 10 0.005.
Proof.
  assert (H1 : 0 < 101.325) by lra.
  assert (H2 : -273.15 < 10) by lra.
  assert (H3 : 10 <= 20) by lra.
  assert (H4 : 0 <= 0.005) by lra.
  assert (H5 : 0.005 <= 0.01) by lra.
  repeat (split; [assumption|]).
  exact (dry_air_density_decreasing 101.325 10 20 0.005 0.01 H1 H2 H3 H4 H5).
Defined.

(** *** The standard atmosphere *)

Lemma pow_Rpower (x y : R) : 0 < x -> Real.pow x y = Rpower x y.
Proof.
  intros Hx. unfold Real.pow. destruct (Req_dec_T _ _) as [E|_]; [|reflexivity].
  rewrite powerRZ_Rpower by assumption. now rewrite <- E.
Qed.

(** X11.  At sea level [STD_press] is 101.325 kPa and [STD_temp] 15
    degrees Celsius; below 44330 m, where the base of the power is
    positive, the pressure is positive, and both pressure and temperature
    fall strictly as the elevation rises. *)
Theorem STD_atmosphere (e1 e2 : R) :
  e1 < e2 -> e2 < 44330 ->
  STD_press 0 = 101.325 /\ STD_temp 0 = 15
  /\ 0 < STD_press e2 /\ STD_press e2 < STD_press e1
  /\ STD_temp e2 < STD_temp e1.
Proof.
  intros H12 H2. unfold STD_press, STD_temp. to_R. dec_R.
  split; [|split; [lra|]].
  - replace (1 - 225577 / 10000000000 * 0) with 1 by lra.
    rewrite RealFacts.pow_one. lra.
  - assert (B2 : 0 < 1 - 225577 / 10000000000 * e2) by lra.
    assert (B1 : 0 < 1 - 225577 / 10000000000 * e1) by lra.
    rewrite !pow_Rpower by assumption.
    assert (Q : Rpower (1 - 225577 / 10000000000 * e2) (52559 / 10000)
                < Rpower (1 - 225577 / 10000000000 * e1) (52559 / 10000))
      by (apply Rlt_Rpower_l; lra).
    assert (Q0 : 0 < Rpower (1 - 225577 / 10000000000 * e2) (52559 / 10000))
      by (unfold Rpower; apply exp_pos).
    repeat split; lra.
Qed.

Lemma STD_atmosphere_witness :
  0 < 1000 /\ 1000 < 44330
  /\ STD_press 0 = 101.325 /\ STD_temp 0 = 15
  /\ 0 < STD_press 1000 /\ STD_press 1000 < STD_press 0
  /\ STD_temp 1000 < STD_temp 0.
Proof.
  assert (H1 : 0 < 1000) by lra.
  assert (H2 : 1000 < 44330) by lra.
  repeat (split; [assumption|]).
  exact (STD_atmosphere 0 1000 H1 H2).
Defined.

(** *** Saturated air *)

(** X12.  With the wet bulb given equal to the dry bulb, between -100 and
    200 degrees Celsius and at a pressure above the saturation pressure,
    [psych] returns a relative humidity of 1 and a degree of saturation
    of 1. *)
Theorem psych_saturated fuel junk init (P : R) (T : Z) :
  (-100 <= T <= 200)%Z -> sat_press (IZR T) < P / 1000 ->
  psych fuel junk init P (IZR T) T 1 3 1 = Some 1
  /\ psych fuel junk init P (IZR T) T 1 6 1 = Some 1.
Proof.
  intros [HT1 HT2] HP. apply IZR_le in HT1, HT2.
  pose proof (sat_press_pos (IZR T)) as Hs.
  split; unfold_psych; to_R; f_equal.
  - apply rel_hum_saturated; [lra | exact HP].
  - rewrite hum_rat_saturated by lra.
    unfold hum_rat2. to_R. dec_R. field. split; lra.
Qed.

Lemma psych_saturated_witness :
  (-100 <= 20 <= 200)%Z /\ sat_press 20 < 101325 / 1000
  /\ psych 10 (fun _ => 0) (frame_of 0) 101325 20 20 1 3 1 = Some 1
  /\ psych 10 (fun _ => 0) (frame_of 0) 101325 20 20 1 6 1 = Some 1.
Proof.
  pose proof sat_press_20 as B.
  assert (H1 : (-100 <= 20 <= 200)%Z) by lia.
  assert (H2 : sat_press 20 < 101325 / 1000) by lra.
  repeat (split; [assumption|]).
  exact (psych_saturated 10 (fun _ => 0) (frame_of 0) 101325 20 H1 H2).
Defined.

(** *** The saturation pressure grows with the temperature *)

Lemma ln_diff_ge (a b : R) : 0 < a -> 0 < b -> (b - a) / b <= ln b - ln a.
Proof.
  intros Ha Hb.
  pose proof (exp_ineq1_le (ln a - ln b)) as E.
  assert (L : ln (a / b) = ln a - ln b).
  { unfold Rdiv. rewrite ln_mult, ln_Rinv; try lra.
    now apply Rinv_0_lt_compat. }
  rewrite <- L, exp_ln in E by (apply Rdiv_lt_0_compat; lra).
  replace ((b - a) / b) with (1 - a / b) by (field; lra). lra.
Qed.

Lemma inv_diff_ge (a b m : R) :
  0 < a -> a < b -> b <= m -> (b - a) / (m * m) <= / a - / b.
Proof.
  intros Ha Hab Hm.
  replace (/ a - / b) with ((b - a) / (a * b)) by (field; lra).
  apply div_le_div; try nra.
  apply Rmult_le_compat_l; nra.
Qed.

Lemma liquid_increasing (a b la lb : R) :
  273.15 <= a -> a < b -> b <= 473.15 -> (b - a) / b <= lb - la ->
  -5800.2206 / a + 1.3914993 + -0.048640239 * a
  + 0.000041764768 * (a * a) + -0.000000014452093 * (a * a * a)
  + 6.5459673 * la
  < -5800.2206 / b + 1.3914993 + -0.048640239 * b
    + 0.000041764768 * (b * b) + -0.000000014452093 * (b * b * b)
    + 6.5459673 * lb.
Proof.
  intros Ha Hab Hb Hl.
  assert (T1 : (b - a) / (473.15 * 473.15) <= / a - / b)
    by (apply inv_diff_ge; lra).
  assert (T5 : (b - a) / 473.15 <= (b - a) / b)
    by (apply div_le_div; try lra; nra).
  assert (T3 : (b - a) * 546.3 <= b * b - a * a) by nra.
  assert (Q : a * a + a * b + b * b <= 671612.7675) by nra.
  assert (T4 : b * b * b - a * a * a <= (b - a) * 671612.7675).
  { replace (b * b * b - a * a * a) with ((b - a) * (a * a + a * b + b * b))
      by ring.
    apply Rmult_le_compat_l; lra. }
  unfold Rdiv in *.
  set (ia := / a) in *. set (ib := / b) in *.
  set (a2 := a * a) in *. set (b2 := b * b) in *.
  set (a3 := a * a * a) in *. set (b3 := b * b * b) in *.
  lra.
Qed.

Lemma ice_increasing (a b la lb : R) :
  0 < a -> a < b -> b <= 273.15 -> (b - a) / b <= lb - la ->
  -5674.5359 / a + 6.3925247 + -0.009677843 * a
  + 0.00000062215701 * (a * a) + 2.0747825E-09 * (a * a * a)
  + -9.484024E-13 * (a * a * a * a) + 4.1635019 * la
  < -5674.5359 / b + 6.3925247 + -0.009677843 * b
    + 0.00000062215701 * (b * b) + 2.0747825E-09 * (b * b * b)
    + -9.484024E-13 * (b * b * b * b) + 4.1635019 * lb.
Proof.
  intros Ha Hab Hb Hl.
  assert (T1 : (b - a) / (273.15 * 273.15) <= / a - / b)
    by (apply inv_diff_ge; lra).
  assert (T5 : (b - a) / 273.15 <= (b - a) / b)
    by (apply div_le_div; try lra; nra).
  assert (T2 : 0 <= b * b - a * a) by nra.
  assert (Q3 : 0 <= a * a + a * b + b * b) by nra.
  assert (T3 : 0 <= b * b * b - a * a * a).
  { replace (b * b * b - a * a * a) with ((b - a) * (a * a + a * b + b * b))
      by ring.
    apply Rmult_le_pos; lra. }
  assert (Q4 : (a + b) * (a * a + b * b) <= 81519894).
  { assert (0 <= a * a + b * b <= 149221.85) by nra.
    assert (0 <= a + b <= 546.3) by lra. nra. }
  assert (T4 : b * b * b * b - a * a * a * a <= (b - a) * 81519894).
  { replace (b * b * b * b - a * a * a * a)
      with ((b - a) * ((a + b) * (a * a + b * b))) by ring.
    apply Rmult_le_compat_l; lra. }
  unfold Rdiv in *.
  set (ia := / a) in *. set (ib := / b) in *.
  set (a2 := a * a) in *. set (b2 := b * b) in *.
  set (a3 := a * a * a) in *. set (b3 := b * b * b) in *.
  set (a4 := a3 * a) in *. set (b4 := b3 * b) in *.
  lra.
Qed.

Lemma pow_4 (x : R) : Real.pow x 4 = x * x * x * x.
Proof. rewrite RealFacts.pow_int. simpl. lra. Qed.

(** At and below freezing [sat_press] is the correlation over ice. *)
Lemma sat_press_ice (t : R) :
  t <= 0 ->
  sat_press t =
  Rtrigo_def.exp
    (-5674.5359 / (t + 273.15) + 6.3925247 + -0.009677843 * (t + 273.15)
     + 0.00000062215701 * ((t + 273.15) * (t + 273.15))
     + 2.0747825E-09 * ((t + 273.15) * (t + 273.15) * (t + 273.15))
     + -9.484024E-13
       * ((t + 273.15) * (t + 273.15) * (t + 273.15) * (t + 273.15))
     + 4.1635019 * ln (t + 273.15)) / 1000.
Proof.
  intros Ht. unfold sat_press. to_R. dec_R.
  destruct (Real.leb (t + 27315 / 100) (27315 / 100)) eqn:E.
  - rewrite RealFacts.pow_2, RealFacts.pow_3, pow_4.
    first [reflexivity | f_equal; f_equal; lra].
  - apply RealFacts.leb_false in E. lra.
Qed.

Lemma sat_press_ice_increasing (t1 t2 : R) :
  -273.15 < t1 -> t1 < t2 -> t2 <= 0 -> sat_press t1 < sat_press t2.
Proof.
  intros H1 H12 H2. rewrite !sat_press_ice by lra.
  unfold Rdiv at 1 3. apply Rmult_lt_compat_r; [lra|].
  apply exp_increasing.
  apply ice_increasing; try lra.
  apply ln_diff_ge; lra.
Qed.

Lemma sat_press_liquid_increasing (t1 t2 : R) :
  0 < t1 -> t1 < t2 -> t2 <= 200 -> sat_press t1 < sat_press t2.
Proof.
  intros H1 H12 H2. rewrite !sat_press_liquid by lra.
  unfold Rdiv at 1 3. apply Rmult_lt_compat_r; [lra|].
  apply exp_increasing.
  apply liquid_increasing; try lra.
  apply ln_diff_ge; lra.
Qed.

(** X13.  Within each of its two regimes, over ice above absolute zero and
    over liquid water up to 200 degrees Celsius, [sat_press] grows strictly
    with the temperature. *)
Theorem sat_press_increasing (t1 t2 : R) :
  t1 < t2 ->
  (-273.15 < t1 /\ t2 <= 0) \/ (0 < t1 /\ t2 <= 200) ->
  sat_press t1 < sat_press t2.
Proof.
  intros H12 [[H1 H2] | [H1 H2]].
  - now apply sat_press_ice_increasing.
  - now apply sat_press_liquid_increasing.
Qed.

Lemma sat_press_increasing_witness :
  15 < 20 /\ ((-273.15 < 15 /\ 20 <= 0) \/ (0 < 15 /\ 20 <= 200))
  /\ sat_press 15 < sat_press 20.
Proof.
  assert (H1 : 15 < 20) by lra.
  assert (H2 : (-273.15 < 15 /\ 20 <= 0) \/ (0 < 15 /\ 20 <= 200))
    by (right; lra).
  repeat (split; [assumption|]).
  exact (sat_press_increasing 15 20 H1 H2).
Defined.

(** *** Dew point given *)

(** X14.  From a dew point, [psych] asked for the relative humidity
    returns [sat_press Dew / sat_press Tdb]; for a dew point not above the
    dry bulb, both in the same regime of [sat_press], that value lies in
    (0, 1]. *)
Theorem psych_dew_point_given fuel junk init (P Tdb : R) (Dew : Z) :
  IZR Dew <= Tdb ->
  (-273.15 < IZR Dew /\ Tdb <= 0) \/ (0 < IZR Dew /\ Tdb <= 200) ->
  psych fuel junk init P Tdb Dew 2 3 1
  = Some (sat_press (IZR Dew) / sat_press Tdb)
  /\ 0 < sat_press (IZR Dew) / sat_press Tdb <= 1.
Proof.
  intros HD HR. split; [reflexivity|].
  pose proof (sat_press_pos (IZR Dew)) as H1.
  pose proof (sat_press_pos Tdb) as H2.
  split; [now apply Rdiv_lt_0_compat|].
  destruct HD as [HD|HD].
  - left. apply div_lt; [assumption|]. rewrite Rmult_1_l.
    destruct HR as [[R1 R2] | [R1 R2]].
    + now apply sat_press_ice_increasing.
    + now apply sat_press_liquid_increasing.
  - right. rewrite HD. field. lra.
Qed.

Lemma psych_dew_point_given_witness :
  15 <= 20
  /\ ((-273.15 < 15 /\ 20 <= 0) \/ (0 < 15 /\ 20 <= 200))
  /\ psych 10 (fun _ => 0) (frame_of 0) 101325 20 15 2 3 1
     = Some (sat_press 15 / sat_press 20)
  /\ 0 < sat_press 15 / sat_press 20 <= 1.
Proof.
  assert (H1 : 15 <= 20) by lra.
  assert (H2 : (-273.15 < 15 /\ 20 <= 0) \/ (0 < 15 /\ 20 <= 200))
    by (right; lra).
  repeat (split; [assumption|]).
  exact (psych_dew_point_given 10 (fun _ => 0) (frame_of 0) 101325 20 15
           H1 H2).
Defined.

(** X15.  With the dew point given equal to the dry bulb, at a pressure
    above the saturation pressure, [psych] returns a relative humidity of
    1 and a degree of saturation of [0.621945 / 0.62198]: the humidity
    ratio from a dew point is computed with the first constant, the
    saturation humidity ratio with the second. *)
Theorem psych_dew_point_saturated fuel junk init (P : R) (T : Z) :
  sat_press (IZR T) < P / 1000 ->
  psych fuel junk init P (IZR T) T 2 3 1 = Some 1
  /\ psych fuel junk init P (IZR T) T 2 6 1 = Some (0.621945 / 0.62198)
  /\ 0.621945 / 0.62198 < 1.
Proof.
  intros HP. pose proof (sat_press_pos (IZR T)) as Hs.
  split; [|split].
  - unfold_psych. to_R. f_equal. field. lra.
  - unfold_psych. unfold hum_rat2. to_R. dec_R. f_equal. field.
    repeat split; lra.
  - lra.
Qed.

Lemma psych_dew_point_saturated_witness :
  sat_press 20 < 101325 / 1000
  /\ psych 10 (fun _ => 0) (frame_of 0) 101325 20 20 2 3 1 = Some 1
  /\ psych 10 (fun _ => 0) (frame_of 0) 101325 20 20 2 6 1
     = Some (0.621945 / 0.62198)
  /\ 0.621945 / 0.62198 < 1.
Proof.
  pose proof sat_press_20 as B.
  assert (H1 : sat_press 20 < 101325 / 1000) by lra.
  split; [exact H1|].
  exact (psych_dew_point_saturated 10 (fun _ => 0) (frame_of 0) 101325 20
           H1).
Defined.

(** *** Degree of saturation *)

(** X16.  Case 6 of the output [switch] stores
    [W / hum_rat2 Tdb 1 P] in [out] and changes nothing else; on a frame
    whose humidity ratio is that of [hum_rat2] at a relative humidity in
    [[0, 1]], below saturation of the total pressure, that degree of
    saturation is [RH * (P - Pws) / (P - RH * Pws)], which lies between 0
    and the relative humidity. *)
Theorem degree_of_saturation_le_RH fuel junk (s : @state R) (RH : R) :
  0 <= RH <= 1 -> sat_press (Var.Tdb s) < Var.P s ->
  Var.W s = hum_rat2 (Var.Tdb s) RH (Var.P s) ->
  switch 6 (output fuel junk) s
  = Some (Var.set_out (Var.W s / hum_rat2 (Var.Tdb s) 1 (Var.P s)) s)
  /\ Var.W s / hum_rat2 (Var.Tdb s) 1 (Var.P s)
     = RH * (Var.P s - sat_press (Var.Tdb s))
       / (Var.P s - RH * sat_press (Var.Tdb s))
  /\ 0 <= Var.W s / hum_rat2 (Var.Tdb s) 1 (Var.P s) <= RH.
Proof.
  intros [H0 H1] HP HW. split; [reflexivity|].
  rewrite HW.
  pose proof (sat_press_pos (Var.Tdb s)) as Hs.
  set (p := sat_press (Var.Tdb s)) in *. set (Pt := Var.P s) in *.
  assert (RH * p <= p) by nra.
  assert (E : hum_rat2 (Var.Tdb s) RH Pt / hum_rat2 (Var.Tdb s) 1 Pt
              = RH * (Pt - p) / (Pt - RH * p)).
  { unfold hum_rat2. fold p. to_R. dec_R. field. repeat split; lra. }
  rewrite E. split; [reflexivity|]. split.
  - apply Rmult_le_pos; [nra|]. left. apply Rinv_0_lt_compat. lra.
  - destruct H0 as [H0|H0].
    + assert (RH * (Pt - p) / (Pt - RH * p) <= RH / 1)
        by (apply div_le_div; try lra; nra).
      lra.
    + rewrite <- H0. right. field. lra.
Qed.

Lemma degree_of_saturation_le_RH_witness :
  let s := Var.Frame 101.325 20 0 0 0 (hum_rat2 20 0.5 101.325) 0 0 in
  0 <= 0.5 <= 1 /\ sat_press (Var.Tdb s) < Var.P s
  /\ Var.W s = hum_rat2 (Var.Tdb s) 0.5 (Var.P s)
  /\ switch 6 (output 10 (fun _ => 0)) s
     = Some (Var.set_out (Var.W s / hum_rat2 (Var.Tdb s) 1 (Var.P s)) s)
  /\ Var.W s / hum_rat2 (Var.Tdb s) 1 (Var.P s)
     = 0.5 * (Var.P s - sat_press (Var.Tdb s))
       / (Var.P s - 0.5 * sat_press (Var.Tdb s))
  /\ 0 <= Var.W s / hum_rat2 (Var.Tdb s) 1 (Var.P s) <= 0.5.
Proof.
  intros s. pose proof sat_press_20 as B.
  assert (H1 : 0 <= 0.5 <= 1) by lra.
  assert (H2 : sat_press (Var.Tdb s) < Var.P s) by (simpl; lra).
  assert (H3 : Var.W s = hum_rat2 (Var.Tdb s) 0.5 (Var.P s))
    by reflexivity.
  repeat (split; [assumption|]).
  exact (degree_of_saturation_le_RH 10 (fun _ => 0) s 0.5 H1 H2 H3).
Defined.

(** *** Wet bulb given *)

(** X17.  For a wet bulb not above the dry bulb, between -100 and 200
    degrees Celsius and at a pressure above the saturation pressure at the
    wet bulb, the humidity ratio of [hum_rat], in either of its regimes,
    does not exceed the saturation humidity ratio at the wet bulb. *)
Theorem hum_rat_le_saturation (Tdb Twb P : R) :
  -100 <= Twb -> Twb <= Tdb -> Tdb <= 200 -> sat_press Twb < P ->
  hum_rat Tdb Twb P <= hum_rat2 Twb 1 P.
Proof.
  intros H1 H2 H3 HP. pose proof (sat_press_pos Twb) as Hs.
  unfold hum_rat, hum_rat2. to_R. dec_R.
  set (p := sat_press Twb) in *.
  replace (62198 / 100000 * 1 * p / (P - 1 * p))
    with (62198 / 100000 * p / (P - p)) by (field; lra).
  set (Ws := 62198 / 100000 * p / (P - p)).
  assert (HWs : 0 < Ws) by (apply Rdiv_lt_0_compat; lra).
  destruct (Real.leb 0 Tdb).
  - replace Ws with (Ws / 1) at 2 by (field; lra).
    apply div_le_div; try lra. nra.
  - replace Ws with (Ws / 1) at 2 by (field; lra).
    apply div_le_div; try lra. nra.
Qed.

Lemma hum_rat_le_saturation_witness :
  -100 <= 15 /\ 15 <= 20 /\ 20 <= 200 /\ sat_press 15 < 101.325
  /\ hum_rat 20 15 101.325 <= hum_rat2 15 1 101.325.
Proof.
  pose proof sat_press_20 as B. pose proof sat_press_15_20 as Q.
  pose proof (sat_press_pos 15) as Q0.
  assert (H1 : -100 <= 15) by lra.
  assert (H2 : 15 <= 20) by lra.
  assert (H3 : 20 <= 200) by lra.
  assert (H4 : sat_press 15 < 101.325) by lra.
  repeat (split; [assumption|]).
  exact (hum_rat_le_saturation 20 15 101.325 H1 H2 H3 H4).
Defined.

(** *** The two unit systems *)

(** X18.  For an input other than wet bulb, dew point and enthalpy, and an
    output that has no Imperial conversion, a call in Imperial units
    returns what the call in SI units returns on the pressure converted to
    Pa and the dry bulb converted to Celsius. *)
Theorem psych_IP_as_SI fuel junk init (P Tdb : R) inValue inType outType :
  inType <> 1%Z -> inType <> 2%Z -> inType <> 7%Z ->
  outType <> 1%Z -> outType <> 2%Z -> outType <> 5%Z -> outType <> 7%Z ->
  outType <> 9%Z -> outType <> 10%Z ->
  psych fuel junk init P Tdb inValue inType outType 0
  = psych fuel junk init (P * 4.4482216152605 / (0.0254 * 0.0254))
      ((Tdb - 32) / 1.8) inValue inType outType 1.
Proof.
  intros I1 I2 I7 O1 O2 O5 O7 O9 O10.
  unfold psych, normalise.
  cbv [Z.eqb Pos.eqb seq assign Var.set_P Var.set_Tdb Var.P Var.Tdb].
  rewrite input_IP_as_SI by assumption. to_R.
  rewrite RealFacts.pow_2.
  match goal with
  | |- option_map _ (match switch _ _ ?a with _ => _ end)
       = option_map _ (match switch _ _ ?b with _ => _ end) =>
      replace a with b
  end.
  - destruct (switch inType (input_SI inValue) _) as [s1|]; [|reflexivity].
    destruct (resolve inType outType s1) as [s2|]; [|reflexivity].
    destruct (switch outType (output fuel junk) s2) as [s3|]; [|reflexivity].
    now rewrite !denormalise_no_match by assumption.
  - f_equal.
Qed.

Lemma psych_IP_as_SI_witness :
  3%Z <> 1%Z /\ 3%Z <> 2%Z /\ 3%Z <> 7%Z
  /\ 4%Z <> 1%Z /\ 4%Z <> 2%Z /\ 4%Z <> 5%Z /\ 4%Z <> 7%Z /\ 4%Z <> 9%Z
  /\ 4%Z <> 10%Z
  /\ psych 10 (fun _ => 0) (frame_of 0) 14.696 68 1 3 4 0
     = psych 10 (fun _ => 0) (frame_of 0)
         (14.696 * 4.4482216152605 / (0.0254 * 0.0254)) ((68 - 32) / 1.8)
         1 3 4 1.
Proof.
  assert (I1 : 3%Z <> 1%Z) by discriminate.
  assert (I2 : 3%Z <> 2%Z) by discriminate.
  assert (I7 : 3%Z <> 7%Z) by discriminate.
  assert (O1 : 4%Z <> 1%Z) by discriminate.
  assert (O2 : 4%Z <> 2%Z) by discriminate.
  assert (O5 : 4%Z <> 5%Z) by discriminate.
  assert (O7 : 4%Z <> 7%Z) by discriminate.
  assert (O9 : 4%Z <> 9%Z) by discriminate.
  assert (O10 : 4%Z <> 10%Z) by discriminate.
  repeat (split; [assumption|]).
  exact (psych_IP_as_SI 10 (fun _ => 0) (frame_of 0) 14.696 68 1 3 4
           I1 I2 I7 O1 O2 O5 O7 O9 O10).
Defined.

(** *** Specific volume and density *)

(** X19.  At a positive pressure and a dry bulb above -273.15, in SI or
    Imperial units, whenever [psych] asked for the humidity ratio returns
    [w >= 0], it returns, asked for the specific volume and for the density
    of moist air from the same inputs, two values whose product is
    [1 + w]. *)
Theorem psych_volume_density fuel junk init (P Tdb : R) inValue inType SIq
    (w : R) :
  (SIq = 0 \/ SIq = 1)%Z -> 0 < P -> -273.15 < Tdb -> 0 <= w ->
  psych fuel junk init P Tdb inValue inType 4 SIq = Some w ->
  exists v d : R,
    psych fuel junk init P Tdb inValue inType 9 SIq = Some v
    /\ psych fuel junk init P Tdb inValue inType 10 SIq = Some d
    /\ v * d = 1 + w.
Proof.
  intros HS HP HT Hw.
  assert (Hi : (inType = 1 \/ inType = 2 \/ inType = 3 \/ inType = 4
                \/ inType = 7
                \/ (inType <> 1 /\ inType <> 2 /\ inType <> 3
                    /\ inType <> 4 /\ inType <> 7))%Z) by lia.
  destruct HS as [-> | ->];
    destruct Hi as [-> | [-> | [-> | [-> | [-> | (N1 & N2 & N3 & N4 & N7)]]]]];
    unfold psych, normalise, resolve, denormalise;
    cbv [Z.eqb Pos.eqb orb seq assign].
  all: try (rewrite !(switch_no_match inType)
              by (repeat constructor; simpl; congruence)).
  all: unfold_psych; unfold dry_air_density, hum_rat2; to_R; dec_R.
  all: rewrite ?RealFacts.pow_2, ?RealFacts.pow_3.
  all: intros [= E]; rewrite ?E.
  all: eexists; eexists; split; [reflexivity | split; [reflexivity|]].
  all: field; repeat split; try lra; try nra.
Qed.

Lemma psych_volume_density_witness :
  (1 = 0 \/ 1 = 1)%Z /\ 0 < 101325 /\ -273.15 < 20 /\ 0 <= 0
  /\ psych 10 (fun _ => 0) (frame_of 0) 101325 20 0 3 4 1 = Some 0
  /\ exists v d : R,
       psych 10 (fun _ => 0) (frame_of 0) 101325 20 0 3 9 1 = Some v
       /\ psych 10 (fun _ => 0) (frame_of 0) 101325 20 0 3 10 1 = Some d
       /\ v * d = 1 + 0.
Proof.
  assert (HS : (1 = 0 \/ 1 = 1)%Z) by (right; reflexivity).
  assert (HP : 0 < 101325) by lra.
  assert (HT : -273.15 < 20) by lra.
  assert (Hw : 0 <= 0) by lra.
  assert (E : psych 10 (fun _ => 0) (frame_of 0) 101325 20 0 3 4 1 = Some 0).
  { unfold_psych. unfold hum_rat2. to_R. f_equal.
    rewrite !Rmult_0_r, Rmult_0_l. apply zero_div. }
  repeat (split; [assumption|]).
  exact (psych_volume_density 10 (fun _ => 0) (frame_of 0) 101325 20 0 3 1 0
           HS HP HT Hw E).
Defined.

End RealProperties.
